(** * AdvancedMapComponent: the view synchronisation core

    A shallow embedding of [src/app/advanced-map/advanced-map.component.ts].

    The component is a single-threaded event-driven object: every method and
    every callback runs to completion on the event loop.  It is modelled as a
    state record (the class fields, plus the part of the environment the
    callbacks close over: the HTTP requests in flight and the timers created by
    [timer(30000, 30000)]) and one total function per method or callback.  The
    function [step] dispatches one event-loop turn. *)

From Stdlib Require Import ZArith Ascii String List Bool.
From stdpp Require Import base option list gmap strings.

Local Open Scope Z_scope.

(** ** Values *)

(** A JavaScript number.  The component never computes with coordinates: it
    obtains them from [Number.parseFloat] on a string of the geocoder's answer,
    from the JSON of the POI endpoint or from [map.getCenter()], and passes
    them on.  A number is therefore kept symbolically: either the result of
    [Number.parseFloat] on a given string, or a number supplied by the
    environment, identified by an integer code. *)
Inductive JsNumber : Type :=
| ParseFloat (s : string)
| Num (code : Z).

Module Location.
(** [interface Location] *)
Record t : Type := Build
  { display_name : string;
    lat : string;
    lon : string }.
End Location.

Module Restaurant.
(** The [tags] object of [interface Restaurant]; [name] is optional. *)
Record tags_t : Type := BuildTags
  { name : option string;
    amenity : string }.
(** [interface Restaurant] *)
Record t : Type := Build
  { id : Z;
    lat : JsNumber;
    lon : JsNumber;
    tags : tags_t }.
End Restaurant.

(** A [mapboxgl.Marker] as the component configures it: colour, position
    ([setLngLat([lng, lat])]), the HTML of its popup, and whether the
    mouseenter / mouseleave listeners that toggle the popup were attached. *)
Record Marker : Type :=
  { color : string;
    lngLat : JsNumber * JsNumber;
    popupHTML : string;
    hoverToggle : bool }.

(** A GeoJSON point feature of the "restaurants" source. *)
Record Feature : Type :=
  { coordinates : JsNumber * JsNumber;
    prop_id : Z;
    prop_name : string }.

(** The "restaurants" source as [addSource] configures it. *)
Record GeoJSONSource : Type :=
  { data : list Feature;
    cluster : bool;
    clusterMaxZoom : Z;
    clusterRadius : Z }.

(** The part of the [mapboxgl.Map] widget the component acts on. *)
Record MapWidget : Type :=
  { flyTarget : option (JsNumber * JsNumber);   (* centre of the last [flyTo] *)
    loadListeners : nat;                        (* listeners added by [on("load", ..)] *)
    source : option GeoJSONSource;              (* the "restaurants" source *)
    layers : list string;                       (* ids of the layers added *)
    removed : bool }.                           (* [map.remove()] was called *)

(** An HTTP request in flight, by the endpoint and the parameters the
    component puts in the URL. *)
Inductive Request : Type :=
| Nominatim (query : string)
| Overpass (lat lon : JsNumber).

(** What the [HttpClient] observable delivers: an error notification or one
    body. *)
Inductive HttpResult (A : Type) : Type :=
| HttpError
| HttpOk (body : A).
Arguments HttpError {A}.
Arguments HttpOk {A} body.

(** A subscription to [timer(30000, 30000)]. *)
Record Timer : Type :=
  { armedAt : Z;        (* time of the subscription, in ms *)
    active : bool }.    (* not yet unsubscribed or completed *)

(** ** State *)

Record State : Type :=
  { (* fields of the class *)
    map : option MapWidget;
    markers : list Marker;
    destroyed : bool;                    (* [destroy$] has emitted and completed *)
    refreshSubscription : option nat;    (* index into [timers] *)
    searchQuery : string;
    location : option Location.t;
    restaurants : list Restaurant.t;
    loading : bool;
    error : option string;
    isOffline : bool;
    (* environment *)
    timers : list Timer;                 (* every timer subscription made so far *)
    pending : gmap nat Request;          (* requests issued and not yet answered *)
    issued : nat }.                      (* number of requests issued so far *)

Definition set_map (v : option MapWidget) (s : State) : State :=
  {| map := v; markers := markers s; destroyed := destroyed s;
     refreshSubscription := refreshSubscription s; searchQuery := searchQuery s;
     location := location s; restaurants := restaurants s; loading := loading s;
     error := error s; isOffline := isOffline s; timers := timers s;
     pending := pending s; issued := issued s |}.

Definition set_markers (v : list Marker) (s : State) : State :=
  {| map := map s; markers := v; destroyed := destroyed s;
     refreshSubscription := refreshSubscription s; searchQuery := searchQuery s;
     location := location s; restaurants := restaurants s; loading := loading s;
     error := error s; isOffline := isOffline s; timers := timers s;
     pending := pending s; issued := issued s |}.

Definition set_destroyed (v : bool) (s : State) : State :=
  {| map := map s; markers := markers s; destroyed := v;
     refreshSubscription := refreshSubscription s; searchQuery := searchQuery s;
     location := location s; restaurants := restaurants s; loading := loading s;
     error := error s; isOffline := isOffline s; timers := timers s;
     pending := pending s; issued := issued s |}.

Definition set_refreshSubscription (v : option nat) (s : State) : State :=
  {| map := map s; markers := markers s; destroyed := destroyed s;
     refreshSubscription := v; searchQuery := searchQuery s;
     location := location s; restaurants := restaurants s; loading := loading s;
     error := error s; isOffline := isOffline s; timers := timers s;
     pending := pending s; issued := issued s |}.

Definition set_searchQuery (v : string) (s : State) : State :=
  {| map := map s; markers := markers s; destroyed := destroyed s;
     refreshSubscription := refreshSubscription s; searchQuery := v;
     location := location s; restaurants := restaurants s; loading := loading s;
     error := error s; isOffline := isOffline s; timers := timers s;
     pending := pending s; issued := issued s |}.

Definition set_location (v : option Location.t) (s : State) : State :=
  {| map := map s; markers := markers s; destroyed := destroyed s;
     refreshSubscription := refreshSubscription s; searchQuery := searchQuery s;
     location := v; restaurants := restaurants s; loading := loading s;
     error := error s; isOffline := isOffline s; timers := timers s;
     pending := pending s; issued := issued s |}.

Definition set_restaurants (v : list Restaurant.t) (s : State) : State :=
  {| map := map s; markers := markers s; destroyed := destroyed s;
     refreshSubscription := refreshSubscription s; searchQuery := searchQuery s;
     location := location s; restaurants := v; loading := loading s;
     error := error s; isOffline := isOffline s; timers := timers s;
     pending := pending s; issued := issued s |}.

Definition set_loading (v : bool) (s : State) : State :=
  {| map := map s; markers := markers s; destroyed := destroyed s;
     refreshSubscription := refreshSubscription s; searchQuery := searchQuery s;
     location := location s; restaurants := restaurants s; loading := v;
     error := error s; isOffline := isOffline s; timers := timers s;
     pending := pending s; issued := issued s |}.

Definition set_error (v : option string) (s : State) : State :=
  {| map := map s; markers := markers s; destroyed := destroyed s;
     refreshSubscription := refreshSubscription s; searchQuery := searchQuery s;
     location := location s; restaurants := restaurants s; loading := loading s;
     error := v; isOffline := isOffline s; timers := timers s;
     pending := pending s; issued := issued s |}.

Definition set_isOffline (v : bool) (s : State) : State :=
  {| map := map s; markers := markers s; destroyed := destroyed s;
     refreshSubscription := refreshSubscription s; searchQuery := searchQuery s;
     location := location s; restaurants := restaurants s; loading := loading s;
     error := error s; isOffline := v; timers := timers s;
     pending := pending s; issued := issued s |}.

Definition set_timers (v : list Timer) (s : State) : State :=
  {| map := map s; markers := markers s; destroyed := destroyed s;
     refreshSubscription := refreshSubscription s; searchQuery := searchQuery s;
     location := location s; restaurants := restaurants s; loading := loading s;
     error := error s; isOffline := isOffline s; timers := v;
     pending := pending s; issued := issued s |}.

Definition set_pending (v : gmap nat Request) (s : State) : State :=
  {| map := map s; markers := markers s; destroyed := destroyed s;
     refreshSubscription := refreshSubscription s; searchQuery := searchQuery s;
     location := location s; restaurants := restaurants s; loading := loading s;
     error := error s; isOffline := isOffline s; timers := timers s;
     pending := v; issued := issued s |}.

Definition set_issued (v : nat) (s : State) : State :=
  {| map := map s; markers := markers s; destroyed := destroyed s;
     refreshSubscription := refreshSubscription s; searchQuery := searchQuery s;
     location := location s; restaurants := restaurants s; loading := loading s;
     error := error s; isOffline := isOffline s; timers := timers s;
     pending := pending s; issued := v |}.

(** The field initialisers of the class; [online] is [navigator.onLine]. *)
Definition initial (online : bool) : State :=
  {| map := None; markers := []; destroyed := false;
     refreshSubscription := None; searchQuery := "Paris";
     location := None; restaurants := []; loading := false;
     error := None; isOffline := negb online; timers := [];
     pending := ∅; issued := 0%nat |}.

(** ** Strings *)

(** The white space [String.prototype.trim] strips, as far as it is ASCII:
    TAB, LF, VT, FF, CR and SPACE.  (The Unicode spaces it also strips are
    multi-byte sequences in this representation and are left alone.) *)
Definition isWhiteSpace (c : ascii) : bool :=
  let n := nat_of_ascii c in
  Nat.eqb n 32 || (Nat.leb 9 n && Nat.leb n 13).

Fixpoint trimStart (s : string) : string :=
  match s with
  | EmptyString => EmptyString
  | String c r => if isWhiteSpace c then trimStart r else s
  end.

Fixpoint rev_string (acc s : string) : string :=
  match s with
  | EmptyString => acc
  | String c r => rev_string (String c acc) r
  end.

Definition trim (s : string) : string :=
  rev_string EmptyString (trimStart (rev_string EmptyString (trimStart s))).

(** JavaScript truthiness of a string: the empty string is falsy. *)
Definition truthy (s : string) : bool :=
  match s with EmptyString => false | String _ _ => true end.

(** The messages assigned to [this.error]. *)
Definition msg_geocode_failed : string := "Failed to fetch location. Please try again.".
Definition msg_no_results : string := "No results found for this location".
Definition msg_poi_failed : string := "Failed to fetch restaurants. Please try again.".

(** ** Methods *)

(** [this.http.get(url).pipe(..).subscribe(..)]: the request goes out and its
    callbacks wait in [pending] under the next free number. *)
Definition http_get (r : Request) (s : State) : State :=
  set_issued (S (issued s)) (set_pending (<[issued s := r]> (pending s)) s).

(** [initMap]: creates the widget; the "moveend" listener it registers is the
    [MoveEnd] case of [step]. *)
Definition initMap (s : State) : State :=
  set_map (Some {| flyTarget := None; loadListeners := 0%nat; source := None;
                   layers := []; removed := false |}) s.

Definition updateMapCenter (lon lat : JsNumber) (s : State) : State :=
  match map s with
  | Some m =>
      set_map (Some {| flyTarget := Some (lon, lat); loadListeners := loadListeners m;
                       source := source m; layers := layers m; removed := removed m |}) s
  | None => s
  end.

Definition fetchRestaurantsForCoordinates (lat lon : JsNumber) (s : State) : State :=
  if isOffline s then s
  else http_get (Overpass lat lon) (set_loading true s).

Definition searchLocation (query : string) (s : State) : State :=
  if negb (truthy (trim query)) || isOffline s then s
  else http_get (Nominatim query) (set_error None (set_loading true s)).

(** [tags.name || "Unnamed Restaurant"] *)
Definition nameOrUnnamed (r : Restaurant.t) : string :=
  match Restaurant.name (Restaurant.tags r) with
  | Some n => if truthy n then n else "Unnamed Restaurant"
  | None => "Unnamed Restaurant"
  end.

Definition h3 (text : string) : string :=
  String.append "<h3>" (String.append text "</h3>").

Definition centerMarker (l : Location.t) : Marker :=
  {| color := "#FF0000";
     lngLat := (ParseFloat (Location.lon l), ParseFloat (Location.lat l));
     popupHTML := h3 (Location.display_name l);
     hoverToggle := false |}.

Definition restaurantMarker (r : Restaurant.t) : Marker :=
  {| color := "#4285F4";
     lngLat := (Restaurant.lon r, Restaurant.lat r);
     popupHTML := h3 (nameOrUnnamed r);
     hoverToggle := true |}.

(** [setupClustering] only registers a listener for the widget's "load"
    event; the listener itself is [clusterOnLoad]. *)
Definition setupClustering (s : State) : State :=
  match map s with
  | Some m =>
      set_map (Some {| flyTarget := flyTarget m; loadListeners := S (loadListeners m);
                       source := source m; layers := layers m; removed := removed m |}) s
  | None => s
  end.

Definition feature (r : Restaurant.t) : Feature :=
  {| coordinates := (Restaurant.lon r, Restaurant.lat r);
     prop_id := Restaurant.id r;
     prop_name := nameOrUnnamed r |}.

Definition clusterOnLoad (s : State) : State :=
  match map s with
  | Some m =>
      let fs := List.map feature (restaurants s) in
      match source m with
      | Some src =>
          set_map (Some {| flyTarget := flyTarget m; loadListeners := loadListeners m;
                           source := Some {| data := fs; cluster := cluster src;
                                             clusterMaxZoom := clusterMaxZoom src;
                                             clusterRadius := clusterRadius src |};
                           layers := layers m; removed := removed m |}) s
      | None =>
          set_map (Some {| flyTarget := flyTarget m; loadListeners := loadListeners m;
                           source := Some {| data := fs; cluster := true;
                                             clusterMaxZoom := 14; clusterRadius := 50 |};
                           layers := layers m ++ ["clusters"; "cluster-count"];
                           removed := removed m |}) s
      end
  | None => s
  end.

(** [updateMapMarkers]: the early return, then the old markers are removed,
    the centre marker is pushed, [forEach] pushes one marker per restaurant,
    and the clustering set-up follows when there are more than 20. *)
Definition updateMapMarkers (s : State) : State :=
  match map s, location s with
  | Some _, Some l =>
      let pushed :=
        fold_left (fun ms r => ms ++ [restaurantMarker r]) (restaurants s) [centerMarker l] in
      let s1 := set_markers pushed s in
      if (20 <? length (restaurants s))%nat then setupClustering s1 else s1
  | _, _ => s
  end.

Definition cancel (t : Timer) : Timer := {| armedAt := armedAt t; active := false |}.

(** [setupAutoRefresh] at time [now]: the previous subscription, if any, is
    unsubscribed and a new [timer(30000, 30000)] is subscribed.  The
    [takeUntil(this.destroy$)] in front of it ends the timer when [destroy$]
    emits (see [ngOnDestroy]); subscribing after [destroy$] has completed
    gives a notifier that completes without a value, which [takeUntil]
    ignores. *)
Definition setupAutoRefresh (now : Z) (s : State) : State :=
  let s1 :=
    match refreshSubscription s with
    | Some i => set_timers (alter cancel i (timers s)) s
    | None => s
    end in
  set_refreshSubscription (Some (length (timers s1)))
    (set_timers (timers s1 ++ [{| armedAt := now; active := true |}]) s1).

(** The callback of the refresh timer. *)
Definition refreshTick (s : State) : State :=
  match location s with
  | Some l =>
      if negb (isOffline s)
      then fetchRestaurantsForCoordinates
             (ParseFloat (Location.lat l)) (ParseFloat (Location.lon l)) s
      else s
  | None => s
  end.

(** The [subscribe] callback of [searchLocation]. *)
Definition searchLocation_next (body : list Location.t) (s : State) : State :=
  let s1 :=
    match body with
    | [] => set_location None (set_error (Some msg_no_results) s)
    | d :: _ =>
        let l := Location.Build (Location.display_name d) (Location.lat d) (Location.lon d) in
        let s' := set_location (Some l) s in
        let s'' := updateMapCenter (ParseFloat (Location.lon l)) (ParseFloat (Location.lat l)) s' in
        fetchRestaurantsForCoordinates
          (ParseFloat (Location.lat l)) (ParseFloat (Location.lon l)) s''
    end in
  set_loading false s1.

(** The [catchError] of [searchLocation]: sets the message and continues the
    stream with [of([])]. *)
Definition searchLocation_catchError (s : State) : State * list Location.t :=
  (set_error (Some msg_geocode_failed) s, []).

(** The [subscribe] callback of [fetchRestaurantsForCoordinates];
    [elements] is [data.elements], absent when the body has none. *)
Definition fetchRestaurants_next (now : Z) (elements : option (list Restaurant.t))
    (s : State) : State :=
  let s1 := set_restaurants (default [] elements) s in
  let s2 := updateMapMarkers s1 in
  let s3 := set_loading false s2 in
  setupAutoRefresh now s3.

(** The [catchError] of [fetchRestaurantsForCoordinates]: sets the message
    and continues with [of({ elements: [] })]. *)
Definition fetchRestaurants_catchError (s : State)
  : State * option (list Restaurant.t) :=
  (set_error (Some msg_poi_failed) s, Some []).

Definition ngOnInit (s : State) : State :=
  let s1 := initMap s in
  searchLocation (searchQuery s1) s1.

(** [ngOnDestroy]: [destroy$.next()] ends every subscription piped through
    [takeUntil(this.destroy$)] (a second [next] on the completed subject does
    nothing), the refresh subscription is unsubscribed, the widget removed. *)
Definition ngOnDestroy (s : State) : State :=
  let s1 :=
    if destroyed s then s
    else set_destroyed true (set_timers (cancel <$> timers s) s) in
  let s2 :=
    match refreshSubscription s1 with
    | Some i => set_timers (alter cancel i (timers s1)) s1
    | None => s1
    end in
  match map s2 with
  | Some m =>
      set_map (Some {| flyTarget := flyTarget m; loadListeners := loadListeners m;
                       source := source m; layers := layers m; removed := true |}) s2
  | None => s2
  end.

(** ** The event loop *)

(** One turn of the event loop.  [ModelChange] is the template's binding
    writing [searchQuery] (the template is not part of the class);
    [SearchInput] is an emission of the [setupSearch] pipeline reaching its
    subscriber; the two response events carry the number of the request they
    answer; [Tick i] is timer [i] firing. *)
Inductive Event : Type :=
| Online
| Offline
| ModelChange (q : string)
| SearchInput
| OnSubmit
| MoveEnd (center_lat center_lng : JsNumber)
| GeocodeResponse (id : nat) (r : HttpResult (list Location.t))
| PoiResponse (id : nat) (r : HttpResult (option (list Restaurant.t)))
| Tick (i : nat)
| MapLoad
| Destroy.

(** [timer(30000, 30000)] subscribed at [armedAt] fires at
    [armedAt + 30000 * k] for [k >= 1]. *)
Definition refreshPeriod : Z := 30000.

Definition due (now : Z) (t : Timer) : bool :=
  (armedAt t <? now) && ((now - armedAt t) mod refreshPeriod =? 0).

Definition step (now : Z) (s : State) (e : Event) : State :=
  match e with
  | Online => if destroyed s then s else set_isOffline false s
  | Offline => if destroyed s then s else set_isOffline true s
  | ModelChange q => set_searchQuery q s
  | SearchInput => if destroyed s then s else searchLocation (searchQuery s) s
  | OnSubmit => searchLocation (searchQuery s) s
  | MoveEnd center_lat center_lng =>
      match map s with
      | Some m =>
          if removed m then s
          else fetchRestaurantsForCoordinates center_lat center_lng s
      | None => s
      end
  | GeocodeResponse id r =>
      match pending s !! id with
      | Some (Nominatim _) =>
          let s0 := set_pending (delete id (pending s)) s in
          match r with
          | HttpOk body => searchLocation_next body s0
          | HttpError =>
              let '(s1, body) := searchLocation_catchError s0 in
              searchLocation_next body s1
          end
      | _ => s
      end
  | PoiResponse id r =>
      match pending s !! id with
      | Some (Overpass _ _) =>
          let s0 := set_pending (delete id (pending s)) s in
          match r with
          | HttpOk body => fetchRestaurants_next now body s0
          | HttpError =>
              let '(s1, body) := fetchRestaurants_catchError s0 in
              fetchRestaurants_next now body s1
          end
      | _ => s
      end
  | Tick i =>
      match timers s !! i with
      | Some t => if active t && due now t then refreshTick s else s
      | None => s
      end
  | MapLoad =>
      match map s with
      | Some m => if removed m then s else Nat.iter (loadListeners m) clusterOnLoad s
      | None => s
      end
  | Destroy => ngOnDestroy s
  end.

(** A sequence of turns, each with the time at which it runs. *)
Definition run (s : State) (tr : list (Z * Event)) : State :=
  fold_left (fun st te => step (fst te) st (snd te)) tr s.

(** The states the component can be in: [ngOnInit] on a fresh instance, then
    any turns. *)
Inductive reachable : State -> Prop :=
| reachable_init (online : bool) : reachable (ngOnInit (initial online))
| reachable_step (s : State) (now : Z) (e : Event) :
    reachable s -> reachable (step now s e).

(** The [online] event of the window. *)
Definition isOnline (e : Event) : bool :=
  match e with Online => true | _ => false end.

(** ** The search pipeline *)

(** A DOM "input" event: the identity of the event object (every dispatch
    creates a new object), the time of the dispatch, and the value of
    [this.searchQuery] once the event's own listeners have run. *)
Record InputEvent : Type :=
  { ev_id : nat;
    ev_time : Z;
    ev_query : string }.

(** [debounceTime(dueTime)] on a finite chronological stream observed until
    at least [dueTime] after its last event: an event is passed on when no
    other event follows it within [dueTime]. *)
Fixpoint debounceTime (dueTime : Z) (l : list InputEvent) : list InputEvent :=
  match l with
  | [] => []
  | e :: rest =>
      match rest with
      | [] => [e]
      | e' :: _ =>
          if ev_time e' - ev_time e <? dueTime
          then debounceTime dueTime rest
          else e :: debounceTime dueTime rest
      end
  end.

(** [distinctUntilChanged()]: a value is passed on when it is the first or
    when the comparator finds it different from the last one passed on. *)
Fixpoint distinctUntilChanged_from {A : Type} (same : A -> A -> bool)
    (previous : option A) (l : list A) : list A :=
  match l with
  | [] => []
  | x :: rest =>
      match previous with
      | Some p =>
          if same p x then distinctUntilChanged_from same previous rest
          else x :: distinctUntilChanged_from same (Some x) rest
      | None => x :: distinctUntilChanged_from same (Some x) rest
      end
  end.

Definition distinctUntilChanged {A : Type} (same : A -> A -> bool) (l : list A) : list A :=
  distinctUntilChanged_from same None l.

(** The default comparator is [===]; the values in the stream are the event
    objects, so it compares identities. *)
Definition strictEquals (a b : InputEvent) : bool := Nat.eqb (ev_id a) (ev_id b).

(** [fromEvent(input, "input").pipe(debounceTime(300), distinctUntilChanged(), ..)]:
    the events that reach the subscriber. *)
Definition setupSearch (input : list InputEvent) : list InputEvent :=
  distinctUntilChanged strictEquals (debounceTime 300 input).

(** The subscriber calls [searchLocation(this.searchQuery)]: the queries it
    commits, in order. *)
Definition committed (input : list InputEvent) : list string :=
  List.map ev_query (setupSearch input).

(** The turns of the event loop an input stream gives rise to: the binding's
    write at each event and, for an event that gets through the pipeline, the
    subscriber's call 300ms later. *)
Definition drive (input : list InputEvent) : list (Z * Event) :=
  flat_map
    (fun e =>
       (ev_time e, ModelChange (ev_query e))
       :: (if existsb (strictEquals e) (setupSearch input)
           then [(ev_time e + 300, SearchInput)] else []))
    input.

(** A burst: consecutive events less than [dueTime] apart. *)
Fixpoint burst (dueTime : Z) (l : list InputEvent) : Prop :=
  match l with
  | [] => True
  | e :: rest =>
      match rest with
      | [] => True
      | e' :: _ => ev_time e' - ev_time e < dueTime /\ burst dueTime rest
      end
  end.

(** The first event of [b] comes at least [dueTime] after the last of [h]. *)
Definition separated (dueTime : Z) (h b : list InputEvent) : Prop :=
  match last h, head b with
  | Some x, Some y => dueTime <= ev_time y - ev_time x
  | _, _ => True
  end.

(** ** Sample data *)

(** "Paris" is typed; a second later an "s" is typed and deleted again
    within 100ms. *)
Definition typed_twice : list InputEvent :=
  [ {| ev_id := 0; ev_time := 0; ev_query := "Paris" |};
    {| ev_id := 1; ev_time := 1000; ev_query := "Pariss" |};
    {| ev_id := 2; ev_time := 1100; ev_query := "Paris" |} ].


Definition paris : Location.t := Location.Build "Paris, France" "48.8566" "2.3522".

Definition resto (i : Z) : Restaurant.t :=
  Restaurant.Build i (Num (2 * i)) (Num (2 * i + 1))
    (Restaurant.BuildTags None "restaurant").

Definition restos (n : nat) : list Restaurant.t :=
  List.map (fun i => resto (Z.of_nat i)) (seq 1 n).

(** Online start, "Paris" geocoded, its POI fetch answered with one
    restaurant: the refresh timer is armed at time 20. *)
Definition s_paris : State :=
  run (ngOnInit (initial true))
    [(10, GeocodeResponse 0 (HttpOk [paris]));
     (20, PoiResponse 1 (HttpOk (Some [resto 1])))].

(** [s_paris] after the connection is lost. *)
Definition s_offline : State := step 25 s_paris Offline.

(** One of each trigger: a submitted search, a debounced input, a pan and a
    tick of the armed refresh timer when it is due. *)
Definition offline_triggers : list (Z * Event) :=
  [(100, ModelChange "Lyon"); (110, OnSubmit); (400, SearchInput);
   (500, MoveEnd (Num 1) (Num 2)); (30020, Tick 0)].

(** [s_paris], then a search for a place the geocoder does not know:
    [location] is cleared. *)
Definition s_nowhere : State :=
  run s_paris
    [(100, ModelChange "Qwghlm"); (110, OnSubmit); (200, GeocodeResponse 2 (HttpOk []))].

(** [s_paris] after a pan: request 2 is a POI fetch in flight. *)
Definition s_panned : State := step 100 s_paris (MoveEnd (Num 7) (Num 8)).

(** A pan right after start-up: request 1 is a POI fetch in flight while no
    location has been found yet. *)
Definition s_fresh_pan : State :=
  step 5 (ngOnInit (initial true)) (MoveEnd (Num 7) (Num 8)).

(** A pan after the location was lost: request 3 is a POI fetch in flight,
    the markers of Paris are still on the map. *)
Definition s_nowhere_pan : State := step 300 s_nowhere (MoveEnd (Num 7) (Num 8)).

(** [s_paris] after two pans: requests 2 and 3 are POI fetches in flight,
    3 the newer one. *)
Definition s_two_pans : State :=
  run s_paris [(100, MoveEnd (Num 7) (Num 8)); (200, MoveEnd (Num 9) (Num 10))].

(** The newer of the two answered first. *)
Definition s_newer_applied : State :=
  step 300 s_two_pans (PoiResponse 3 (HttpOk (Some [resto 3]))).

(** [s_paris] with a search for "Lyon" submitted: request 2 is its geocode
    request in flight. *)
Definition s_lyon : State :=
  run s_paris [(100, ModelChange "Lyon"); (110, OnSubmit)].

(** What a response can change of the view. *)
Definition view (s : State) : option Location.t * list Restaurant.t * list Marker :=
  (location s, restaurants s, markers s).

(** Every active timer is the one [refreshSubscription] refers to. *)
Definition single_timer (s : State) : Prop :=
  forall (i : nat) (t : Timer),
    timers s !! i = Some t -> active t = true -> refreshSubscription s = Some i.

(** ** Auxiliary notions for the properties below *)

(** A string of white space only, the strings [trim] empties. *)
Fixpoint blank (s : string) : bool :=
  match s with
  | EmptyString => true
  | String c r => isWhiteSpace c && blank r
  end.

(** A string with a visible ASCII character (codes 33 to 126), which no
    trimming removes. *)
Definition isVisible (c : ascii) : bool :=
  let n := nat_of_ascii c in Nat.leb 33 n && Nat.leb n 126.

Fixpoint hasVisible (s : string) : bool :=
  match s with
  | EmptyString => false
  | String c r => isVisible c || hasVisible r
  end.

(** Consecutive events at least [dueTime] apart. *)
Fixpoint spaced (dueTime : Z) (l : list InputEvent) : Prop :=
  match l with
  | [] => True
  | e :: rest =>
      match rest with
      | [] => True
      | e' :: _ => dueTime <= ev_time e' - ev_time e /\ spaced dueTime rest
      end
  end.

(** The turns in which the user asks for something: a submitted search, a
    debounced input, a pan. *)
Definition userAction (e : Event) : bool :=
  match e with
  | OnSubmit | SearchInput | MoveEnd _ _ => true
  | _ => false
  end.

(** The widget with one more listener for its load event. *)
Definition withListeners (n : nat) (m : MapWidget) : MapWidget :=
  {| flyTarget := flyTarget m; loadListeners := (loadListeners m + n)%nat;
     source := source m; layers := layers m; removed := removed m |}.

(** The turns that run [searchLocation]. *)
Definition isSearch (e : Event) : bool :=
  match e with
  | OnSubmit | SearchInput => true
  | _ => false
  end.

(** [s'] has at most one request more in flight than [s], numbered
    [issued s]. *)
Definition atMostOneRequest (s s' : State) : Prop :=
  (issued s' = issued s /\ pending s' ⊆ pending s)
  \/ (issued s' = S (issued s)
      /\ exists r : Request,
           pending s' !! issued s = Some r
           /\ pending s' ⊆ <[issued s := r]> (pending s)).

(** Nothing was ever requested, armed or shown. *)
Definition idle (s : State) : Prop :=
  issued s = 0%nat /\ pending s = ∅ /\ timers s = [] /\ view s = (None, [], []).

(** ** More sample data *)

(** The component right after [ngOnInit], online: request 0 is the geocode
    request for "Paris". *)
Definition s_init : State := ngOnInit (initial true).

(** The widget as [initMap] creates it, and as it is once it has flown to
    Paris. *)
Definition fresh_map : MapWidget :=
  {| flyTarget := None; loadListeners := 0; source := None; layers := [];
     removed := false |}.

Definition paris_map : MapWidget :=
  {| flyTarget := Some (ParseFloat "2.3522", ParseFloat "48.8566");
     loadListeners := 0; source := None; layers := []; removed := false |}.

(** [s_panned] after its POI fetch failed, and after one more pan (request
    3 in flight). *)
Definition s_failed : State := step 900 s_panned (PoiResponse 2 HttpError).

Definition s_failed_pan : State := step 950 s_failed (MoveEnd (Num 1) (Num 2)).

(** [s_panned] after its POI fetch brought 25 restaurants: clustering has
    been set up once, timer 1 has replaced timer 0. *)
Definition s_many : State :=
  step 900 s_panned (PoiResponse 2 (HttpOk (Some (restos 25)))).

(** [s_offline] torn down. *)
Definition s_torn_offline : State := step 30 s_offline Destroy.

(** What a user may try on it: the connection returns, a search is
    submitted, the map is panned. *)
Definition after_teardown : list (Z * Event) :=
  [(40, Online); (50, ModelChange "Lyon"); (60, OnSubmit);
   (70, MoveEnd (Num 1) (Num 2))].

(** Turns without a user action. *)
Definition no_user_action : list (Z * Event) :=
  [(10, Online); (20, Tick 0); (30, MapLoad); (40, Offline);
   (50, ModelChange "Lyon"); (60, Online)].

(** The same query entered twice, a second apart. *)
Definition typed_slowly : list InputEvent :=
  [ {| ev_id := 0; ev_time := 0; ev_query := "Paris" |};
    {| ev_id := 1; ev_time := 1000; ev_query := "Paris" |} ].

(** ** Frame properties of the methods *)

Lemma reachable_run (s : State) (tr : list (Z * Event)) :
  reachable s -> reachable (run s tr).
Proof.
  revert s. induction tr as [|[now e] tr IH]; intros s Hs; [exact Hs|].
  apply IH. now apply reachable_step.
Qed.

Lemma fetchRestaurants_offline (lat lon : JsNumber) (s : State) :
  isOffline s = true -> fetchRestaurantsForCoordinates lat lon s = s.
Proof. intros H. unfold fetchRestaurantsForCoordinates. now rewrite H. Qed.

Lemma searchLocation_offline (q : string) (s : State) :
  isOffline s = true -> searchLocation q s = s.
Proof. intros H. unfold searchLocation. rewrite H, orb_true_r. reflexivity. Qed.

Lemma updateMapMarkers_frame (s : State) :
  isOffline (updateMapMarkers s) = isOffline s
  /\ issued (updateMapMarkers s) = issued s
  /\ pending (updateMapMarkers s) = pending s
  /\ timers (updateMapMarkers s) = timers s
  /\ refreshSubscription (updateMapMarkers s) = refreshSubscription s
  /\ location (updateMapMarkers s) = location s
  /\ restaurants (updateMapMarkers s) = restaurants s
  /\ error (updateMapMarkers s) = error s
  /\ loading (updateMapMarkers s) = loading s.
Proof.
  unfold updateMapMarkers, setupClustering.
  destruct (map s) as [m|] eqn:Hm, (location s) as [l|] eqn:Hl; try tauto.
  destruct (20 <? length (restaurants s))%nat; cbn; rewrite ?Hm; cbn; tauto.
Qed.

Lemma setupAutoRefresh_frame (now : Z) (s : State) :
  isOffline (setupAutoRefresh now s) = isOffline s
  /\ issued (setupAutoRefresh now s) = issued s
  /\ pending (setupAutoRefresh now s) = pending s
  /\ location (setupAutoRefresh now s) = location s
  /\ restaurants (setupAutoRefresh now s) = restaurants s
  /\ markers (setupAutoRefresh now s) = markers s
  /\ map (setupAutoRefresh now s) = map s
  /\ error (setupAutoRefresh now s) = error s
  /\ loading (setupAutoRefresh now s) = loading s.
Proof.
  unfold setupAutoRefresh. destruct (refreshSubscription s); cbn; tauto.
Qed.

Lemma clusterOnLoad_frame (s : State) :
  isOffline (clusterOnLoad s) = isOffline s
  /\ issued (clusterOnLoad s) = issued s
  /\ pending (clusterOnLoad s) = pending s
  /\ timers (clusterOnLoad s) = timers s
  /\ refreshSubscription (clusterOnLoad s) = refreshSubscription s
  /\ location (clusterOnLoad s) = location s.
Proof.
  unfold clusterOnLoad.
  destruct (map s) as [m|]; [|tauto].
  destruct (source m); cbn; tauto.
Qed.

Lemma clusterOnLoad_iter_frame (n : nat) (s : State) :
  isOffline (Nat.iter n clusterOnLoad s) = isOffline s
  /\ issued (Nat.iter n clusterOnLoad s) = issued s
  /\ pending (Nat.iter n clusterOnLoad s) = pending s
  /\ timers (Nat.iter n clusterOnLoad s) = timers s
  /\ refreshSubscription (Nat.iter n clusterOnLoad s) = refreshSubscription s
  /\ location (Nat.iter n clusterOnLoad s) = location s.
Proof.
  induction n as [|n IH]; [cbn; tauto|].
  change (Nat.iter (S n) clusterOnLoad s)
    with (clusterOnLoad (Nat.iter n clusterOnLoad s)).
  destruct (clusterOnLoad_frame (Nat.iter n clusterOnLoad s))
    as (H1 & H2 & H3 & H4 & H5 & H6).
  destruct IH as (I1 & I2 & I3 & I4 & I5 & I6).
  rewrite H1, H2, H3, H4, H5, H6. tauto.
Qed.

Lemma fetchRestaurants_next_frame (now : Z) (body : option (list Restaurant.t)) (s : State) :
  isOffline (fetchRestaurants_next now body s) = isOffline s
  /\ issued (fetchRestaurants_next now body s) = issued s
  /\ pending (fetchRestaurants_next now body s) = pending s
  /\ location (fetchRestaurants_next now body s) = location s
  /\ restaurants (fetchRestaurants_next now body s) = default [] body
  /\ error (fetchRestaurants_next now body s) = error s
  /\ loading (fetchRestaurants_next now body s) = false.
Proof.
  unfold fetchRestaurants_next.
  destruct (setupAutoRefresh_frame now
              (set_loading false (updateMapMarkers (set_restaurants (default [] body) s))))
    as (A1 & A2 & A3 & A4 & A5 & _ & _ & A8 & A9).
  destruct (updateMapMarkers_frame (set_restaurants (default [] body) s))
    as (B1 & B2 & B3 & _ & _ & B6 & B7 & B8 & _).
  rewrite A1, A2, A3, A4, A5, A8, A9. cbn.
  rewrite B1, B2, B3, B6, B7, B8. cbn. tauto.
Qed.

Lemma searchLocation_next_offline (body : list Location.t) (s : State) :
  isOffline s = true ->
  isOffline (searchLocation_next body s) = true
  /\ issued (searchLocation_next body s) = issued s
  /\ pending (searchLocation_next body s) = pending s.
Proof.
  intros H. unfold searchLocation_next.
  destruct body as [|d body]; cbn; [tauto|].
  rewrite fetchRestaurants_offline.
  - unfold updateMapCenter. cbn. destruct (map s); cbn; tauto.
  - unfold updateMapCenter. cbn. destruct (map s); cbn; exact H.
Qed.

(** While offline, a turn issues no request and puts none in flight. *)
Lemma step_offline (now : Z) (s : State) (e : Event) :
  isOffline s = true ->
  issued (step now s e) = issued s
  /\ pending (step now s e) ⊆ pending s
  /\ (isOnline e = false -> isOffline (step now s e) = true).
Proof.
  intros H. destruct e; cbn [step isOnline].
  - destruct (destroyed s); cbn; repeat split; try done.
  - destruct (destroyed s); cbn; repeat split; try done.
  - cbn. repeat split; try done.
  - destruct (destroyed s); [done|]. rewrite searchLocation_offline by (cbn; exact H). done.
  - rewrite searchLocation_offline by exact H. done.
  - destruct (map s) as [m|]; [|done]. destruct (removed m); [done|].
    rewrite fetchRestaurants_offline by exact H. done.
  - destruct (pending s !! id) as [[q|? ?]|] eqn:Hp; try done.
    destruct r as [|body]; cbn -[searchLocation_next].
    + destruct (searchLocation_next_offline []
                  (set_error (Some msg_geocode_failed) (set_pending (delete id (pending s)) s)) H)
        as (A1 & A2 & A3).
      rewrite A1, A2, A3. cbn. split; [done|]. split; [apply delete_subseteq|done].
    + destruct (searchLocation_next_offline body (set_pending (delete id (pending s)) s) H)
        as (A1 & A2 & A3).
      rewrite A1, A2, A3. cbn. split; [done|]. split; [apply delete_subseteq|done].
  - destruct (pending s !! id) as [[q|? ?]|] eqn:Hp; try done.
    destruct r as [|body]; cbn -[fetchRestaurants_next].
    + destruct (fetchRestaurants_next_frame now (Some [])
                  (set_error (Some msg_poi_failed) (set_pending (delete id (pending s)) s)))
        as (A1 & A2 & A3 & _).
      rewrite A1, A2, A3. cbn. split; [done|]. split; [apply delete_subseteq|done].
    + destruct (fetchRestaurants_next_frame now body (set_pending (delete id (pending s)) s))
        as (A1 & A2 & A3 & _).
      rewrite A1, A2, A3. cbn. split; [done|]. split; [apply delete_subseteq|done].
  - destruct (timers s !! i) as [t|]; [|done].
    destruct (active t && due now t); [|done].
    unfold refreshTick. destruct (location s); [|done]. rewrite H. done.
  - destruct (map s) as [m|]; [|done]. destruct (removed m); [done|].
    destruct (clusterOnLoad_iter_frame (loadListeners m) s) as (A1 & A2 & A3 & _).
    rewrite A1, A2, A3. done.
  - unfold ngOnDestroy.
    set (s1 := if destroyed s then s else _).
    assert (E1 : isOffline s1 = isOffline s /\ issued s1 = issued s /\ pending s1 = pending s)
      by (subst s1; destruct (destroyed s); cbn; tauto).
    destruct E1 as (E1 & E2 & E3).
    set (s2 := match refreshSubscription s1 with Some _ => _ | None => _ end).
    assert (F : isOffline s2 = isOffline s /\ issued s2 = issued s /\ pending s2 = pending s)
      by (subst s2; destruct (refreshSubscription s1); cbn; tauto).
    destruct F as (F1 & F2 & F3).
    destruct (map s2); cbn; rewrite F1, F2, F3; done.
Qed.

(** ** Offline behaviour *)

(** C2. While [isOffline] is true no geocode and no POI request is issued,
    whatever the turns are (submitted search, debounced input, pan, timer
    tick, late responses, ...): over any sequence of turns without an
    [online] event, starting offline, the number of requests issued does not
    change, nothing is added to the requests in flight, and the component
    stays offline.  [ngOnInit] on an offline instance issues nothing either. *)
Theorem offline_no_request_issued (s : State) (tr : list (Z * Event)) :
  isOffline s = true ->
  forallb (fun te => negb (isOnline (snd te))) tr = true ->
  issued (run s tr) = issued s
  /\ pending (run s tr) ⊆ pending s
  /\ isOffline (run s tr) = true
  /\ issued (ngOnInit s) = issued s.
Proof.
  intros Hoff Htr.
  assert (Hinit : issued (ngOnInit s) = issued s).
  { unfold ngOnInit. rewrite searchLocation_offline; [reflexivity | exact Hoff]. }
  revert s Hoff Hinit.
  induction tr as [|[now e] tr IH]; intros s Hoff Hinit; [cbn; done|].
  cbn in Htr. apply andb_prop in Htr as [He Htr].
  apply negb_true_iff in He.
  destruct (step_offline now s e Hoff) as (S1 & S2 & S3).
  specialize (S3 He).
  assert (Hi : issued (ngOnInit (step now s e)) = issued (step now s e)).
  { unfold ngOnInit. rewrite searchLocation_offline; [reflexivity | exact S3]. }
  destruct (IH Htr (step now s e) S3 Hi) as (I1 & I2 & I3 & _).
  change (run s ((now, e) :: tr)) with (run (step now s e) tr).
  rewrite I1, S1. repeat split; try done.
  etrans; [exact I2 | exact S2].
Qed.

(** The same turns issue four requests when the component is online. *)
Example online_triggers_issue_requests :
  issued (run s_paris offline_triggers) = (issued s_paris + 4)%nat.
Proof. reflexivity. Qed.

Lemma offline_no_request_issued_witness :
  isOffline s_offline = true
  /\ forallb (fun te => negb (isOnline (snd te))) offline_triggers = true
  /\ issued (run s_offline offline_triggers) = issued s_offline
  /\ pending (run s_offline offline_triggers) ⊆ pending s_offline
  /\ isOffline (run s_offline offline_triggers) = true
  /\ issued (ngOnInit s_offline) = issued s_offline.
Proof.
  split; [reflexivity|]. split; [reflexivity|].
  apply (offline_no_request_issued s_offline offline_triggers); reflexivity.
Defined.

(** ** The refresh timer *)

Lemma setupAutoRefresh_timers (now : Z) (s : State) :
  refreshSubscription (setupAutoRefresh now s) = Some (length (timers s))
  /\ timers (setupAutoRefresh now s)
     = match refreshSubscription s with
       | Some i => alter cancel i (timers s)
       | None => timers s
       end ++ [{| armedAt := now; active := true |}].
Proof.
  unfold setupAutoRefresh. destruct (refreshSubscription s) as [i|]; cbn.
  - rewrite length_alter. done.
  - done.
Qed.

Lemma setupAutoRefresh_armed (now : Z) (s : State) :
  timers (setupAutoRefresh now s) !! length (timers s)
  = Some {| armedAt := now; active := true |}.
Proof.
  destruct (setupAutoRefresh_timers now s) as [_ ->].
  apply list_lookup_middle.
  destruct (refreshSubscription s); [symmetry; apply length_alter | reflexivity].
Qed.

(** Starting a timer leaves every earlier one cancelled. *)
Lemma setupAutoRefresh_cancels (now : Z) (s : State) (i : nat) (t : Timer) :
  single_timer s ->
  timers (setupAutoRefresh now s) !! i = Some t ->
  active t = true ->
  i = length (timers s).
Proof.
  intros Hinv Hl Ha.
  destruct (setupAutoRefresh_timers now s) as [_ Ht]. rewrite Ht in Hl.
  apply lookup_snoc_Some in Hl as [[Hlt Hl] | [Hlen _]].
  - exfalso. destruct (refreshSubscription s) as [j|] eqn:Hr.
    + destruct (decide (j = i)) as [->|Hne].
      * rewrite list_lookup_alter_eq in Hl.
        destruct (timers s !! i) as [t0|]; [|discriminate].
        cbn in Hl. injection Hl as <-. cbn in Ha. discriminate.
      * rewrite list_lookup_alter_ne in Hl by exact Hne.
        specialize (Hinv i t Hl Ha). congruence.
    + specialize (Hinv i t Hl Ha). congruence.
  - rewrite Hlen. destruct (refreshSubscription s); [apply length_alter | reflexivity].
Qed.

Lemma setupAutoRefresh_single (now : Z) (s : State) :
  single_timer s -> single_timer (setupAutoRefresh now s).
Proof.
  intros Hinv i t Hl Ha.
  rewrite (setupAutoRefresh_cancels now s i t Hinv Hl Ha).
  apply setupAutoRefresh_timers.
Qed.

Lemma single_timer_ext (s s' : State) :
  timers s' = timers s ->
  refreshSubscription s' = refreshSubscription s ->
  single_timer s -> single_timer s'.
Proof. unfold single_timer. intros -> ->. trivial. Qed.

Lemma fetchRestaurants_frame (lat lon : JsNumber) (s : State) :
  timers (fetchRestaurantsForCoordinates lat lon s) = timers s
  /\ refreshSubscription (fetchRestaurantsForCoordinates lat lon s) = refreshSubscription s
  /\ location (fetchRestaurantsForCoordinates lat lon s) = location s
  /\ restaurants (fetchRestaurantsForCoordinates lat lon s) = restaurants s
  /\ markers (fetchRestaurantsForCoordinates lat lon s) = markers s
  /\ error (fetchRestaurantsForCoordinates lat lon s) = error s
  /\ map (fetchRestaurantsForCoordinates lat lon s) = map s.
Proof.
  unfold fetchRestaurantsForCoordinates. destruct (isOffline s); cbn; tauto.
Qed.

Lemma searchLocation_frame (q : string) (s : State) :
  timers (searchLocation q s) = timers s
  /\ refreshSubscription (searchLocation q s) = refreshSubscription s
  /\ location (searchLocation q s) = location s
  /\ restaurants (searchLocation q s) = restaurants s
  /\ markers (searchLocation q s) = markers s
  /\ map (searchLocation q s) = map s.
Proof.
  unfold searchLocation. destruct (negb (truthy (trim q)) || isOffline s); cbn; tauto.
Qed.

Lemma searchLocation_next_frame (body : list Location.t) (s : State) :
  timers (searchLocation_next body s) = timers s
  /\ refreshSubscription (searchLocation_next body s) = refreshSubscription s
  /\ restaurants (searchLocation_next body s) = restaurants s
  /\ markers (searchLocation_next body s) = markers s
  /\ location (searchLocation_next body s) = head body.
Proof.
  unfold searchLocation_next. destruct body as [|d body]; cbn; [tauto|].
  match goal with
  | |- context [fetchRestaurantsForCoordinates ?a ?b ?st] =>
      destruct (fetchRestaurants_frame a b st) as (A1 & A2 & A3 & A4 & A5 & _)
  end.
  rewrite A1, A2, A3, A4, A5.
  unfold updateMapCenter. cbn. destruct (map s); cbn; destruct d; tauto.
Qed.

Lemma refreshTick_frame (s : State) :
  timers (refreshTick s) = timers s
  /\ refreshSubscription (refreshTick s) = refreshSubscription s.
Proof.
  unfold refreshTick. destruct (location s) as [l|]; [|tauto].
  destruct (negb (isOffline s)); [|tauto].
  destruct (fetchRestaurants_frame (ParseFloat (Location.lat l))
              (ParseFloat (Location.lon l)) s) as (A1 & A2 & _).
  tauto.
Qed.

Lemma fetchRestaurants_next_single (now : Z) (body : option (list Restaurant.t)) (s : State) :
  single_timer s -> single_timer (fetchRestaurants_next now body s).
Proof.
  intros Hinv. unfold fetchRestaurants_next. apply setupAutoRefresh_single.
  destruct (updateMapMarkers_frame (set_restaurants (default [] body) s))
    as (_ & _ & _ & B4 & B5 & _).
  eapply single_timer_ext; [| |exact Hinv]; cbn; [exact B4 | exact B5].
Qed.

(** After [ngOnDestroy] no timer is active. *)
Lemma ngOnDestroy_cancels (s : State) (i : nat) (t : Timer) :
  single_timer s ->
  timers (ngOnDestroy s) !! i = Some t -> active t = false.
Proof.
  intros Hinv. unfold ngOnDestroy.
  set (s1 := if destroyed s then s else _).
  assert (H1 : single_timer s1
               /\ (destroyed s = false -> forall j u, timers s1 !! j = Some u -> active u = false)).
  { subst s1. destruct (destroyed s); [split; [exact Hinv | discriminate]|].
    assert (Hc : forall j u, (cancel <$> timers s) !! j = Some u -> active u = false).
    { intros j u Hl. rewrite list_lookup_fmap in Hl.
      destruct (timers s !! j); [|discriminate]. cbn in Hl. injection Hl as <-. reflexivity. }
    split; [|intros _; exact Hc].
    intros j u Hl Ha. cbn in Hl. rewrite (Hc j u Hl) in Ha. discriminate. }
  destruct H1 as [Hinv1 _].
  set (s2 := match refreshSubscription s1 with Some _ => _ | None => _ end).
  assert (H2 : forall j u, timers s2 !! j = Some u -> active u = false).
  { intros j u Hl. destruct (active u) eqn:Ha; [exfalso|reflexivity].
    subst s2. destruct (refreshSubscription s1) as [k|] eqn:Hr.
    - cbn in Hl. destruct (decide (k = j)) as [->|Hne].
      + rewrite list_lookup_alter_eq in Hl.
        destruct (timers s1 !! j); [|discriminate].
        cbn in Hl. injection Hl as <-. cbn in Ha. discriminate.
      + rewrite list_lookup_alter_ne in Hl by exact Hne.
        specialize (Hinv1 j u Hl Ha). congruence.
    - specialize (Hinv1 j u Hl Ha). congruence. }
  destruct (map s2); cbn; intros Hl; exact (H2 i t Hl).
Qed.

Lemma step_single_timer (now : Z) (s : State) (e : Event) :
  single_timer s -> single_timer (step now s e).
Proof.
  intros Hinv. destruct e; cbn [step].
  - destruct (destroyed s); [exact Hinv|]. exact Hinv.
  - destruct (destroyed s); [exact Hinv|]. exact Hinv.
  - exact Hinv.
  - destruct (destroyed s); [exact Hinv|].
    destruct (searchLocation_frame (searchQuery s) s) as (A1 & A2 & _).
    exact (single_timer_ext _ _ A1 A2 Hinv).
  - destruct (searchLocation_frame (searchQuery s) s) as (A1 & A2 & _).
    exact (single_timer_ext _ _ A1 A2 Hinv).
  - destruct (map s) as [m|]; [|exact Hinv]. destruct (removed m); [exact Hinv|].
    destruct (fetchRestaurants_frame center_lat center_lng s) as (A1 & A2 & _).
    exact (single_timer_ext _ _ A1 A2 Hinv).
  - destruct (pending s !! id) as [[q|? ?]|]; try exact Hinv.
    destruct r as [|body]; cbn -[searchLocation_next].
    + destruct (searchLocation_next_frame []
                  (set_error (Some msg_geocode_failed) (set_pending (delete id (pending s)) s)))
        as (A1 & A2 & _).
      exact (single_timer_ext _ _ A1 A2 Hinv).
    + destruct (searchLocation_next_frame body (set_pending (delete id (pending s)) s))
        as (A1 & A2 & _).
      exact (single_timer_ext _ _ A1 A2 Hinv).
  - destruct (pending s !! id) as [[q|? ?]|]; try exact Hinv.
    destruct r as [|body]; cbn -[fetchRestaurants_next];
      apply fetchRestaurants_next_single; exact Hinv.
  - destruct (timers s !! i) as [t|]; [|exact Hinv].
    destruct (active t && due now t); [|exact Hinv].
    destruct (refreshTick_frame s) as (A1 & A2).
    exact (single_timer_ext _ _ A1 A2 Hinv).
  - destruct (map s) as [m|]; [|exact Hinv]. destruct (removed m); [exact Hinv|].
    destruct (clusterOnLoad_iter_frame (loadListeners m) s) as (_ & _ & _ & A1 & A2 & _).
    exact (single_timer_ext _ _ A1 A2 Hinv).
  - intros i t Hl Ha. rewrite (ngOnDestroy_cancels s i t Hinv Hl) in Ha. discriminate.
Qed.

Lemma reachable_single_timer (s : State) : reachable s -> single_timer s.
Proof.
  induction 1 as [online | s now e _ IH].
  - intros i t Hl. unfold ngOnInit in Hl.
    destruct (searchLocation_frame (searchQuery (initMap (initial online)))
                (initMap (initial online))) as (A1 & _).
    rewrite A1 in Hl. cbn in Hl. discriminate.
  - apply step_single_timer. exact IH.
Qed.

Lemma fetchRestaurants_next_armed (now : Z) (body : option (list Restaurant.t)) (s : State) :
  refreshSubscription (fetchRestaurants_next now body s) = Some (length (timers s))
  /\ timers (fetchRestaurants_next now body s) !! length (timers s)
     = Some {| armedAt := now; active := true |}
  /\ (single_timer s ->
      forall (j : nat) (tj : Timer),
        timers (fetchRestaurants_next now body s) !! j = Some tj ->
        active tj = true -> j = length (timers s)).
Proof.
  unfold fetchRestaurants_next.
  set (s3 := set_loading false (updateMapMarkers (set_restaurants (default [] body) s))).
  destruct (updateMapMarkers_frame (set_restaurants (default [] body) s))
    as (_ & _ & _ & B4 & B5 & _).
  assert (Ht : timers s3 = timers s) by (subst s3; cbn; exact B4).
  assert (Hr : refreshSubscription s3 = refreshSubscription s) by (subst s3; cbn; exact B5).
  rewrite <- Ht. split; [apply setupAutoRefresh_timers|].
  split; [apply setupAutoRefresh_armed|].
  intros Hinv j tj Hl Ha.
  apply (setupAutoRefresh_cancels now s3 j tj); [|exact Hl|exact Ha].
  exact (single_timer_ext s s3 Ht Hr Hinv).
Qed.

(** What a POI response does, whether it is a body or an error: the
    [subscribe] callback runs on the request's removal from [pending]. *)
Lemma step_PoiResponse (now : Z) (s : State) (id : nat) (lat lon : JsNumber)
    (r : HttpResult (option (list Restaurant.t))) :
  pending s !! id = Some (Overpass lat lon) ->
  step now s (PoiResponse id r)
  = match r with
    | HttpOk body =>
        fetchRestaurants_next now body (set_pending (delete id (pending s)) s)
    | HttpError =>
        fetchRestaurants_next now (Some [])
          (set_error (Some msg_poi_failed) (set_pending (delete id (pending s)) s))
    end.
Proof. intros Hp. cbn [step]. rewrite Hp. destruct r; reflexivity. Qed.

Lemma step_GeocodeResponse (now : Z) (s : State) (id : nat) (q : string)
    (r : HttpResult (list Location.t)) :
  pending s !! id = Some (Nominatim q) ->
  step now s (GeocodeResponse id r)
  = match r with
    | HttpOk body => searchLocation_next body (set_pending (delete id (pending s)) s)
    | HttpError =>
        searchLocation_next []
          (set_error (Some msg_geocode_failed) (set_pending (delete id (pending s)) s))
    end.
Proof. intros Hp. cbn [step]. rewrite Hp. destruct r; reflexivity. Qed.

(** C10. Every completed POI fetch arms the refresh timer, a failed one
    (the error is turned into an empty result) like a successful one: after
    the response to a POI request in flight, whatever it is,
    [refreshSubscription] refers to an active timer subscribed at the time of
    the completion. *)
Theorem poi_completion_rearms (now : Z) (s : State) (id : nat) (lat lon : JsNumber)
    (r : HttpResult (option (list Restaurant.t))) :
  pending s !! id = Some (Overpass lat lon) ->
  exists k : nat,
    refreshSubscription (step now s (PoiResponse id r)) = Some k
    /\ timers (step now s (PoiResponse id r)) !! k
       = Some {| armedAt := now; active := true |}.
Proof.
  intros Hp. exists (length (timers s)).
  rewrite (step_PoiResponse now s id lat lon r Hp).
  destruct r as [|body].
  - destruct (fetchRestaurants_next_armed now (Some [])
                (set_error (Some msg_poi_failed) (set_pending (delete id (pending s)) s)))
      as (A1 & A2 & _).
    split; [exact A1 | exact A2].
  - destruct (fetchRestaurants_next_armed now body (set_pending (delete id (pending s)) s))
      as (A1 & A2 & _).
    split; [exact A1 | exact A2].
Qed.

Lemma poi_completion_rearms_witness :
  pending s_panned !! 2%nat = Some (Overpass (Num 7) (Num 8))
  /\ exists k : nat,
       refreshSubscription (step 900 s_panned (PoiResponse 2 HttpError)) = Some k
       /\ timers (step 900 s_panned (PoiResponse 2 HttpError)) !! k
          = Some {| armedAt := 900; active := true |}.
Proof.
  split; [reflexivity|].
  apply (poi_completion_rearms 900 s_panned 2 (Num 7) (Num 8) HttpError).
  reflexivity.
Defined.

Lemma due_within_period (now now' : Z) :
  now < now' < now + refreshPeriod ->
  due now' {| armedAt := now; active := true |} = false.
Proof.
  unfold due, refreshPeriod. cbn [armedAt]. intros H.
  rewrite Z.mod_small by lia.
  destruct (now <? now'); [|reflexivity]. cbn.
  apply Z.eqb_neq. lia.
Qed.

Lemma due_at_period (now : Z) :
  due (now + refreshPeriod) {| armedAt := now; active := true |} = true.
Proof.
  unfold due, refreshPeriod. cbn [armedAt].
  replace (now + 30000 - now) with 30000 by lia.
  rewrite (proj2 (Z.ltb_lt now (now + 30000))) by lia.
  reflexivity.
Qed.

(** C7. At most one refresh timer is active at any time; starting a new one
    leaves every other timer cancelled; and every completed POI fetch arms
    the timer anew at the time of the completion: the timer then active is
    the new one only, no tick can fire during the 30 seconds that follow the
    completion, and the first tick is the one 30 seconds after it. *)
Theorem single_refresh_timer (s : State) :
  reachable s ->
  (forall (i j : nat) (ti tj : Timer),
      timers s !! i = Some ti -> timers s !! j = Some tj ->
      active ti = true -> active tj = true -> i = j)
  /\ (forall (now : Z) (i : nat) (t : Timer),
        timers (setupAutoRefresh now s) !! i = Some t ->
        i <> length (timers s) -> active t = false)
  /\ (forall (now : Z) (id : nat) (lat lon : JsNumber)
        (r : HttpResult (option (list Restaurant.t))),
        pending s !! id = Some (Overpass lat lon) ->
        let s' := step now s (PoiResponse id r) in
        let k := length (timers s) in
        refreshSubscription s' = Some k
        /\ timers s' !! k = Some {| armedAt := now; active := true |}
        /\ (forall (j : nat) (tj : Timer),
              timers s' !! j = Some tj -> active tj = true -> j = k)
        /\ (forall (now' : Z) (j : nat),
              now < now' < now + refreshPeriod -> step now' s' (Tick j) = s')
        /\ step (now + refreshPeriod) s' (Tick k) = refreshTick s').
Proof.
  intros Hreach. pose proof (reachable_single_timer s Hreach) as Hinv.
  split; [|split].
  - intros i j ti tj Hi Hj Hai Haj.
    pose proof (Hinv i ti Hi Hai) as E1. pose proof (Hinv j tj Hj Haj) as E2.
    congruence.
  - intros now i t Hl Hne. destruct (active t) eqn:Ha; [|reflexivity].
    exfalso. apply Hne. exact (setupAutoRefresh_cancels now s i t Hinv Hl Ha).
  - intros now id lat lon r Hp s' k.
    assert (H : refreshSubscription s' = Some k
                /\ timers s' !! k = Some {| armedAt := now; active := true |}
                /\ (forall (j : nat) (tj : Timer),
                      timers s' !! j = Some tj -> active tj = true -> j = k)).
    { subst s' k. rewrite (step_PoiResponse now s id lat lon r Hp).
      destruct r as [|body].
      - destruct (fetchRestaurants_next_armed now (Some [])
                    (set_error (Some msg_poi_failed) (set_pending (delete id (pending s)) s)))
          as (A1 & A2 & A3).
        split; [exact A1|]. split; [exact A2|]. apply A3.
        exact (single_timer_ext s _ eq_refl eq_refl Hinv).
      - destruct (fetchRestaurants_next_armed now body (set_pending (delete id (pending s)) s))
          as (A1 & A2 & A3).
        split; [exact A1|]. split; [exact A2|]. apply A3.
        exact (single_timer_ext s _ eq_refl eq_refl Hinv). }
    destruct H as (H1 & H2 & H3).
    split; [exact H1|]. split; [exact H2|]. split; [exact H3|]. split.
    + intros now' j Hwin. cbn [step].
      destruct (timers s' !! j) as [t|] eqn:Hj; [|reflexivity].
      destruct (active t) eqn:Ha; [|reflexivity].
      pose proof (H3 j t Hj Ha) as ->.
      rewrite H2 in Hj. injection Hj as <-.
      rewrite (due_within_period now now' Hwin). reflexivity.
    + cbn [step]. rewrite H2. cbn [active]. rewrite due_at_period. reflexivity.
Qed.

Lemma single_refresh_timer_witness :
  reachable s_panned
  /\ pending s_panned !! 2%nat = Some (Overpass (Num 7) (Num 8))
  /\ refreshSubscription (step 900 s_panned (PoiResponse 2 (HttpOk (Some [resto 2]))))
     = Some 1%nat
  /\ timers (step 900 s_panned (PoiResponse 2 (HttpOk (Some [resto 2])))) !! 1%nat
     = Some {| armedAt := 900; active := true |}.
Proof.
  assert (Hreach : reachable s_panned).
  { unfold s_panned. apply reachable_step. unfold s_paris. apply reachable_run.
    apply reachable_init. }
  split; [exact Hreach|]. split; [reflexivity|].
  destruct (single_refresh_timer s_panned Hreach) as (_ & _ & H).
  destruct (H 900 2%nat (Num 7) (Num 8) (HttpOk (Some [resto 2])) eq_refl)
    as (H1 & H2 & _).
  split; [exact H1 | exact H2].
Defined.

(** ** Teardown and absent location *)

(** C8, as the code has it.  [ngOnDestroy] cancels the refresh timer: no
    timer is active after it.  Losing the location does not: the geocode
    callback touches no timer, and a tick that finds no location does
    nothing. *)
Theorem refresh_cancelled_on_destroy_only (s : State) :
  reachable s ->
  (forall (now : Z) (i : nat) (t : Timer),
      timers (step now s Destroy) !! i = Some t -> active t = false)
  /\ (forall (now : Z) (id : nat) (q : string) (r : HttpResult (list Location.t)),
        pending s !! id = Some (Nominatim q) ->
        timers (step now s (GeocodeResponse id r)) = timers s
        /\ refreshSubscription (step now s (GeocodeResponse id r)) = refreshSubscription s)
  /\ (location s = None -> forall (now : Z) (i : nat), step now s (Tick i) = s).
Proof.
  intros Hreach. pose proof (reachable_single_timer s Hreach) as Hinv.
  split; [|split].
  - intros now i t Hl. cbn [step] in Hl. exact (ngOnDestroy_cancels s i t Hinv Hl).
  - intros now id q r Hp. rewrite (step_GeocodeResponse now s id q r Hp).
    destruct r as [|body].
    + destruct (searchLocation_next_frame []
                  (set_error (Some msg_geocode_failed) (set_pending (delete id (pending s)) s)))
        as (A1 & A2 & _).
      split; [exact A1 | exact A2].
    + destruct (searchLocation_next_frame body (set_pending (delete id (pending s)) s))
        as (A1 & A2 & _).
      split; [exact A1 | exact A2].
  - intros Hloc now i. cbn [step].
    destruct (timers s !! i) as [t|]; [|reflexivity].
    destruct (active t && due now t); [|reflexivity].
    unfold refreshTick. rewrite Hloc. reflexivity.
Qed.

Lemma refresh_cancelled_on_destroy_only_witness :
  reachable s_nowhere
  /\ location s_nowhere = None
  /\ timers (step 300 s_nowhere Destroy) = [{| armedAt := 20; active := false |}]
  /\ step 30020 s_nowhere (Tick 0) = s_nowhere.
Proof.
  assert (Hreach : reachable s_nowhere).
  { unfold s_nowhere. apply reachable_run. unfold s_paris. apply reachable_run.
    apply reachable_init. }
  split; [exact Hreach|]. split; [reflexivity|]. split; [reflexivity|].
  destruct (refresh_cancelled_on_destroy_only s_nowhere Hreach) as (_ & _ & H).
  apply H. reflexivity.
Defined.

(** C8 as stated fails: in [s_nowhere] the location has become absent and
    the timer armed at time 20 is still active. *)
Lemma refresh_survives_absent_location :
  ~ (forall s : State,
        reachable s -> location s = None ->
        forall (i : nat) (t : Timer), timers s !! i = Some t -> active t = false).
Proof.
  intros H.
  assert (Hreach : reachable s_nowhere).
  { unfold s_nowhere. apply reachable_run. unfold s_paris. apply reachable_run.
    apply reachable_init. }
  specialize (H s_nowhere Hreach eq_refl 0%nat {| armedAt := 20; active := true |} eq_refl).
  discriminate H.
Qed.

(** ** Rendering *)

Lemma fold_left_push {A B : Type} (f : A -> B) (l : list A) (acc : list B) :
  fold_left (fun ms r => ms ++ [f r]) l acc = acc ++ List.map f l.
Proof.
  revert acc. induction l as [|x l IH]; intros acc; cbn.
  - symmetry. apply app_nil_r.
  - rewrite IH, <- app_assoc. reflexivity.
Qed.

Lemma updateMapMarkers_present (s : State) (m : MapWidget) (l : Location.t) :
  map s = Some m -> location s = Some l ->
  markers (updateMapMarkers s) = centerMarker l :: List.map restaurantMarker (restaurants s)
  /\ map (updateMapMarkers s)
     = Some (if (20 <? length (restaurants s))%nat
             then {| flyTarget := flyTarget m; loadListeners := S (loadListeners m);
                     source := source m; layers := layers m; removed := removed m |}
             else m).
Proof.
  intros Hm Hl. unfold updateMapMarkers. rewrite Hm, Hl.
  rewrite fold_left_push.
  destruct (20 <? length (restaurants s))%nat.
  - unfold setupClustering. cbn. rewrite Hm. cbn. done.
  - cbn. done.
Qed.

Lemma updateMapMarkers_absent (s : State) :
  location s = None -> updateMapMarkers s = s.
Proof. intros Hl. unfold updateMapMarkers. rewrite Hl. destruct (map s); reflexivity. Qed.

Lemma fetchRestaurants_next_view (now : Z) (body : option (list Restaurant.t)) (s : State) :
  markers (fetchRestaurants_next now body s)
  = markers (updateMapMarkers (set_restaurants (default [] body) s))
  /\ map (fetchRestaurants_next now body s)
     = map (updateMapMarkers (set_restaurants (default [] body) s)).
Proof.
  unfold fetchRestaurants_next.
  destruct (setupAutoRefresh_frame now
              (set_loading false (updateMapMarkers (set_restaurants (default [] body) s))))
    as (_ & _ & _ & _ & _ & A6 & A7 & _).
  rewrite A6, A7. cbn. done.
Qed.

(** C9, as the code has it.  After a POI response is applied, the markers
    are the rendering of the new state when a location is present: the
    location marker followed by one marker per restaurant, in order.  When no
    location is present the renderer returns at once and the markers stay as
    they were. *)
Theorem markers_after_poi_response (now : Z) (s : State) (id : nat) (lat lon : JsNumber)
    (r : HttpResult (option (list Restaurant.t))) (m : MapWidget) :
  map s = Some m ->
  pending s !! id = Some (Overpass lat lon) ->
  match location (step now s (PoiResponse id r)) with
  | Some l =>
      markers (step now s (PoiResponse id r))
      = centerMarker l :: List.map restaurantMarker (restaurants (step now s (PoiResponse id r)))
  | None => markers (step now s (PoiResponse id r)) = markers s
  end.
Proof.
  intros Hm Hp. rewrite (step_PoiResponse now s id lat lon r Hp).
  destruct r as [|body].
  - set (s0 := set_error _ _).
    destruct (fetchRestaurants_next_frame now (Some []) s0) as (_ & _ & _ & A4 & A5 & _).
    destruct (fetchRestaurants_next_view now (Some []) s0) as (V1 & _).
    rewrite A4, A5, V1.
    destruct (location s0) as [l|] eqn:Hl.
    + apply (updateMapMarkers_present (set_restaurants (default [] (Some [])) s0) m l);
        [exact Hm | exact Hl].
    + rewrite updateMapMarkers_absent by exact Hl. reflexivity.
  - set (s0 := set_pending _ _).
    destruct (fetchRestaurants_next_frame now body s0) as (_ & _ & _ & A4 & A5 & _).
    destruct (fetchRestaurants_next_view now body s0) as (V1 & _).
    rewrite A4, A5, V1.
    destruct (location s0) as [l|] eqn:Hl.
    + apply (updateMapMarkers_present (set_restaurants (default [] body) s0) m l);
        [exact Hm | exact Hl].
    + rewrite updateMapMarkers_absent by exact Hl. reflexivity.
Qed.

Lemma markers_after_poi_response_witness :
  map s_panned = Some {| flyTarget := Some (ParseFloat "2.3522", ParseFloat "48.8566");
                         loadListeners := 0; source := None; layers := [];
                         removed := false |}
  /\ pending s_panned !! 2%nat = Some (Overpass (Num 7) (Num 8))
  /\ markers (step 900 s_panned (PoiResponse 2 (HttpOk (Some [resto 2; resto 3]))))
     = [centerMarker paris; restaurantMarker (resto 2); restaurantMarker (resto 3)].
Proof.
  split; [reflexivity|]. split; [reflexivity|].
  exact (markers_after_poi_response 900 s_panned 2 (Num 7) (Num 8)
           (HttpOk (Some [resto 2; resto 3])) _ eq_refl eq_refl).
Defined.

Lemma reachable_s_paris : reachable s_paris.
Proof. unfold s_paris. apply reachable_run, reachable_init. Qed.

Lemma reachable_s_nowhere : reachable s_nowhere.
Proof. unfold s_nowhere. apply reachable_run, reachable_s_paris. Qed.

(** C9 as stated fails: the same pair (no location, one restaurant) is shown
    with no marker after a pan at start-up, and with the markers of Paris
    after a pan that follows a search without result. *)
Lemma markers_not_function_of_view :
  ~ (exists render : option Location.t -> list Restaurant.t -> list Marker,
        forall (s : State) (now : Z) (id : nat) (lat lon : JsNumber)
               (r : HttpResult (option (list Restaurant.t))),
          reachable s ->
          pending s !! id = Some (Overpass lat lon) ->
          markers (step now s (PoiResponse id r))
          = render (location (step now s (PoiResponse id r)))
                   (restaurants (step now s (PoiResponse id r)))).
Proof.
  intros [render H].
  assert (RA : reachable s_fresh_pan).
  { unfold s_fresh_pan. apply reachable_step, reachable_init. }
  assert (RB : reachable s_nowhere_pan).
  { unfold s_nowhere_pan. apply reachable_step, reachable_s_nowhere. }
  pose proof (H s_fresh_pan 400 1%nat (Num 7) (Num 8) (HttpOk (Some [resto 2])) RA eq_refl) as HA.
  pose proof (H s_nowhere_pan 400 3%nat (Num 7) (Num 8) (HttpOk (Some [resto 2])) RB eq_refl) as HB.
  vm_compute in HA. vm_compute in HB.
  rewrite <- HA in HB. discriminate HB.
Qed.

(** C6, as the code has it.  When a successful POI response is applied with
    a location present, the renderer creates the location marker and one
    marker per restaurant whatever their number; with more than 20
    restaurants it sets up clustering in addition (a listener for the
    widget's load event), with 20 or fewer it leaves the widget alone. *)
Theorem markers_and_clustering (now : Z) (s : State) (id : nat) (lat lon : JsNumber)
    (es : list Restaurant.t) (m : MapWidget) (l : Location.t) :
  map s = Some m ->
  location s = Some l ->
  pending s !! id = Some (Overpass lat lon) ->
  markers (step now s (PoiResponse id (HttpOk (Some es))))
  = centerMarker l :: List.map restaurantMarker es
  /\ length (markers (step now s (PoiResponse id (HttpOk (Some es))))) = S (length es)
  /\ map (step now s (PoiResponse id (HttpOk (Some es))))
     = Some (if (20 <? length es)%nat
             then {| flyTarget := flyTarget m; loadListeners := S (loadListeners m);
                     source := source m; layers := layers m; removed := removed m |}
             else m).
Proof.
  intros Hm Hl Hp. rewrite (step_PoiResponse now s id lat lon _ Hp).
  set (s0 := set_pending _ _).
  destruct (fetchRestaurants_next_view now (Some es) s0) as (V1 & V2).
  destruct (updateMapMarkers_present (set_restaurants (default [] (Some es)) s0) m l Hm Hl)
    as (U1 & U2).
  rewrite V1, V2, U1. cbn in U2 |- *. rewrite U2, length_map. done.
Qed.

Lemma markers_and_clustering_witness :
  map s_panned = Some {| flyTarget := Some (ParseFloat "2.3522", ParseFloat "48.8566");
                         loadListeners := 0; source := None; layers := [];
                         removed := false |}
  /\ location s_panned = Some paris
  /\ pending s_panned !! 2%nat = Some (Overpass (Num 7) (Num 8))
  /\ length (markers (step 900 s_panned (PoiResponse 2 (HttpOk (Some (restos 5)))))) = 6%nat
  /\ map (step 900 s_panned (PoiResponse 2 (HttpOk (Some (restos 5))))) = map s_panned.
Proof.
  split; [reflexivity|]. split; [reflexivity|]. split; [reflexivity|].
  destruct (markers_and_clustering 900 s_panned 2 (Num 7) (Num 8) (restos 5) _ paris
              eq_refl eq_refl eq_refl) as (_ & H2 & H3).
  split; [exact H2 | exact H3].
Defined.

(** C6 as stated fails: with 25 restaurants the individual markers are
    created all the same, next to the clustering set-up. *)
Lemma individual_markers_despite_clustering :
  ~ (forall (s : State) (now : Z) (id : nat) (lat lon : JsNumber) (es : list Restaurant.t),
        reachable s ->
        pending s !! id = Some (Overpass lat lon) ->
        (20 < length es)%nat ->
        forall r : Restaurant.t,
          In r es ->
          ~ In (restaurantMarker r)
               (markers (step now s (PoiResponse id (HttpOk (Some es)))))).
Proof.
  intros H.
  assert (R : reachable s_panned).
  { unfold s_panned. apply reachable_step, reachable_s_paris. }
  apply (H s_panned 900 2%nat (Num 7) (Num 8) (restos 25) R eq_refl
           ltac:(vm_compute; lia) (resto 1)).
  - left. reflexivity.
  - vm_compute. right. left. reflexivity.
Qed.

Example twenty_five_restaurants :
  length (markers (step 900 s_panned (PoiResponse 2 (HttpOk (Some (restos 25)))))) = 26%nat
  /\ (loadListeners <$> map (step 900 s_panned (PoiResponse 2 (HttpOk (Some (restos 25))))))
     = Some 1%nat.
Proof. split; reflexivity. Qed.

(** ** Failed requests *)

(** C4, as the code has it.  A failed POI fetch leaves the POI failure
    message in [error] and [loading] false; its error is turned into an empty
    result, which replaces [restaurants], and the markers are rendered from
    it: the location marker alone when a location is present, otherwise the
    markers stay as they were. *)
Theorem poi_failure_empties_restaurants (now : Z) (s : State) (id : nat)
    (lat lon : JsNumber) (m : MapWidget) :
  map s = Some m ->
  pending s !! id = Some (Overpass lat lon) ->
  error (step now s (PoiResponse id HttpError)) = Some msg_poi_failed
  /\ loading (step now s (PoiResponse id HttpError)) = false
  /\ restaurants (step now s (PoiResponse id HttpError)) = []
  /\ markers (step now s (PoiResponse id HttpError))
     = match location s with
       | Some l => [centerMarker l]
       | None => markers s
       end.
Proof.
  intros Hm Hp.
  rewrite (step_PoiResponse now s id lat lon HttpError Hp).
  set (s0 := set_error _ _).
  destruct (fetchRestaurants_next_frame now (Some []) s0)
    as (_ & _ & _ & _ & A5 & A6 & A7).
  destruct (fetchRestaurants_next_view now (Some []) s0) as (V1 & _).
  rewrite A5, A6, A7, V1.
  repeat split; try reflexivity.
  destruct (location s) as [l|] eqn:Hl.
  - apply (updateMapMarkers_present (set_restaurants (default [] (Some [])) s0) m l);
      [exact Hm | exact Hl].
  - rewrite updateMapMarkers_absent by exact Hl. reflexivity.
Qed.

Lemma poi_failure_empties_restaurants_witness :
  map s_panned = Some {| flyTarget := Some (ParseFloat "2.3522", ParseFloat "48.8566");
                         loadListeners := 0; source := None; layers := [];
                         removed := false |}
  /\ pending s_panned !! 2%nat = Some (Overpass (Num 7) (Num 8))
  /\ error (step 900 s_panned (PoiResponse 2 HttpError)) = Some msg_poi_failed
  /\ loading (step 900 s_panned (PoiResponse 2 HttpError)) = false
  /\ restaurants (step 900 s_panned (PoiResponse 2 HttpError)) = []
  /\ markers (step 900 s_panned (PoiResponse 2 HttpError)) = [centerMarker paris].
Proof.
  split; [reflexivity|]. split; [reflexivity|].
  exact (poi_failure_empties_restaurants 900 s_panned 2 (Num 7) (Num 8) _ eq_refl eq_refl).
Defined.

(** C4 as stated fails: in [s_panned] one restaurant is stored and shown,
    and the failure of the fetch in flight removes it. *)
Lemma poi_failure_does_not_keep_restaurants :
  ~ (forall (s : State) (now : Z) (id : nat) (lat lon : JsNumber),
        reachable s ->
        pending s !! id = Some (Overpass lat lon) ->
        error (step now s (PoiResponse id HttpError)) = Some msg_poi_failed
        /\ loading (step now s (PoiResponse id HttpError)) = false
        /\ restaurants (step now s (PoiResponse id HttpError)) = restaurants s
        /\ markers (step now s (PoiResponse id HttpError)) = markers s).
Proof.
  intros H.
  assert (R : reachable s_panned).
  { unfold s_panned. apply reachable_step, reachable_s_paris. }
  destruct (H s_panned 900 2%nat (Num 7) (Num 8) R eq_refl) as (_ & _ & Hr & _).
  vm_compute in Hr. discriminate Hr.
Qed.

(** What a failed geocode request does in general: the cycle stops (no
    request goes out, [loading] is cleared, restaurants and markers stay),
    and the location is replaced by none. *)
Lemma geocode_failure_stops_cycle (now : Z) (s : State) (id : nat) (q : string) :
  pending s !! id = Some (Nominatim q) ->
  issued (step now s (GeocodeResponse id HttpError)) = issued s
  /\ pending (step now s (GeocodeResponse id HttpError)) = delete id (pending s)
  /\ loading (step now s (GeocodeResponse id HttpError)) = false
  /\ location (step now s (GeocodeResponse id HttpError)) = None
  /\ restaurants (step now s (GeocodeResponse id HttpError)) = restaurants s
  /\ markers (step now s (GeocodeResponse id HttpError)) = markers s.
Proof.
  intros Hp. rewrite (step_GeocodeResponse now s id q HttpError Hp).
  cbn. done.
Qed.

(** The message a failed geocode request leaves: [catchError] assigns the
    failure message and hands an empty array to the subscriber, whose
    empty-result branch assigns the no-result message over it. *)
Lemma geocode_failure_message (now : Z) (s : State) (id : nat) (q : string) :
  pending s !! id = Some (Nominatim q) ->
  error (fst (searchLocation_catchError (set_pending (delete id (pending s)) s)))
  = Some msg_geocode_failed
  /\ error (step now s (GeocodeResponse id HttpError)) = Some msg_no_results.
Proof.
  intros Hp. rewrite (step_GeocodeResponse now s id q HttpError Hp).
  cbn. done.
Qed.

(** C3.  The component at the failing input: with Paris shown, the geocode
    request for "Lyon" fails.  [catchError] assigns the geocode failure
    message and no POI fetch goes out, but the message left in [error] after
    the turn is the no-result one, and the location Paris is replaced by
    none. *)
Theorem geocode_failure_at_lyon :
  pending s_lyon !! 2%nat = Some (Nominatim "Lyon")
  /\ location s_lyon = Some paris
  /\ error (fst (searchLocation_catchError (set_pending (delete 2%nat (pending s_lyon)) s_lyon)))
     = Some msg_geocode_failed
  /\ error (step 200 s_lyon (GeocodeResponse 2 HttpError)) = Some msg_no_results
  /\ error (step 200 s_lyon (GeocodeResponse 2 HttpError)) <> Some msg_geocode_failed
  /\ location (step 200 s_lyon (GeocodeResponse 2 HttpError)) = None
  /\ issued (step 200 s_lyon (GeocodeResponse 2 HttpError)) = issued s_lyon.
Proof. repeat split; try reflexivity. vm_compute. discriminate. Qed.

(** ** Responses out of order *)

(** C1, as the code has it.  There is no generation counter: the response
    to any request in flight is applied when it arrives, whatever was issued
    since.  A POI body replaces [restaurants]; a geocode body replaces
    [location] by its first entry, or by none when it is empty. *)
Theorem responses_applied_on_arrival (now : Z) (s : State) (id : nat) (rq : Request) :
  pending s !! id = Some rq ->
  match rq with
  | Overpass _ _ =>
      forall body : option (list Restaurant.t),
        restaurants (step now s (PoiResponse id (HttpOk body))) = default [] body
  | Nominatim _ =>
      forall body : list Location.t,
        location (step now s (GeocodeResponse id (HttpOk body))) = head body
  end.
Proof.
  intros Hp. destruct rq as [q | lat lon]; intros body.
  - rewrite (step_GeocodeResponse now s id q _ Hp).
    apply searchLocation_next_frame.
  - rewrite (step_PoiResponse now s id lat lon _ Hp).
    apply fetchRestaurants_next_frame.
Qed.

Lemma responses_applied_on_arrival_witness :
  pending s_newer_applied !! 2%nat = Some (Overpass (Num 7) (Num 8))
  /\ issued s_newer_applied = 4%nat
  /\ restaurants s_newer_applied = [resto 3]
  /\ restaurants (step 400 s_newer_applied (PoiResponse 2 (HttpOk (Some [resto 2]))))
     = [resto 2].
Proof.
  split; [reflexivity|]. split; [reflexivity|]. split; [reflexivity|].
  exact (responses_applied_on_arrival 400 s_newer_applied 2 (Overpass (Num 7) (Num 8))
           eq_refl (Some [resto 2])).
Defined.

(** C1 as stated fails: in [s_newer_applied] requests 0 to 3 have been
    issued and the answer to request 3 is shown; the answer to the older
    request 2 then arrives and replaces it. *)
Lemma stale_response_applied :
  ~ (forall (s : State) (now : Z) (id : nat)
            (r : HttpResult (option (list Restaurant.t))),
        reachable s ->
        (S id < issued s)%nat ->
        view (step now s (PoiResponse id r)) = view s).
Proof.
  intros H.
  assert (R : reachable s_newer_applied).
  { unfold s_newer_applied. apply reachable_step. unfold s_two_pans.
    apply reachable_run, reachable_s_paris. }
  specialize (H s_newer_applied 400 2%nat (HttpOk (Some [resto 2])) R ltac:(vm_compute; lia)).
  vm_compute in H. discriminate H.
Qed.

(** ** Properties of the search pipeline *)

Lemma debounceTime_cons2 (d : Z) (e e' : InputEvent) (l : list InputEvent) :
  debounceTime d (e :: e' :: l)
  = if ev_time e' - ev_time e <? d
    then debounceTime d (e' :: l)
    else e :: debounceTime d (e' :: l).
Proof. reflexivity. Qed.

Lemma debounceTime_elem (d : Z) (l : list InputEvent) (x : InputEvent) :
  x ∈ debounceTime d l -> x ∈ l.
Proof.
  induction l as [|e l IH]; [intros H; exact H|].
  destruct l as [|e' l]; [intros H; exact H|].
  rewrite debounceTime_cons2.
  destruct (ev_time e' - ev_time e <? d); intros H.
  - apply list_elem_of_further, IH, H.
  - apply elem_of_cons in H as [->|H]; [apply list_elem_of_here|].
    apply list_elem_of_further, IH, H.
Qed.

Lemma debounceTime_fresh (d : Z) (l : list InputEvent) :
  NoDup (ev_id <$> l) -> NoDup (ev_id <$> debounceTime d l).
Proof.
  induction l as [|e l IH]; [intros H; exact H|].
  destruct l as [|e' l]; [intros H; exact H|].
  rewrite debounceTime_cons2. intros H.
  change (ev_id <$> e :: e' :: l) with (ev_id e :: (ev_id <$> e' :: l)) in H.
  apply NoDup_cons in H as [Hnotin Hnd].
  destruct (ev_time e' - ev_time e <? d); [exact (IH Hnd)|].
  change (NoDup (ev_id e :: (ev_id <$> debounceTime d (e' :: l)))).
  apply NoDup_cons. split; [|exact (IH Hnd)].
  intros Hin. apply Hnotin.
  apply list_elem_of_fmap in Hin as (x & Hx & Hin).
  apply list_elem_of_fmap. exists x. split; [exact Hx|].
  exact (debounceTime_elem d _ x Hin).
Qed.

(** On event objects [distinctUntilChanged()] drops nothing: no two events
    are the same object. *)
Lemma distinctUntilChanged_from_fresh (previous : option InputEvent) (l : list InputEvent) :
  NoDup (ev_id <$> l) ->
  (forall p, previous = Some p -> ev_id p ∉ (ev_id <$> l)) ->
  distinctUntilChanged_from strictEquals previous l = l.
Proof.
  revert previous. induction l as [|x l IH]; intros previous Hnd Hp; [reflexivity|].
  change (ev_id <$> x :: l) with (ev_id x :: (ev_id <$> l)) in Hnd, Hp.
  apply NoDup_cons in Hnd as [Hx Hnd].
  assert (Hrest : distinctUntilChanged_from strictEquals (Some x) l = l).
  { apply IH; [exact Hnd|]. intros p [= <-]. exact Hx. }
  cbn [distinctUntilChanged_from]. destruct previous as [p|].
  - unfold strictEquals at 1.
    destruct (Nat.eqb_spec (ev_id p) (ev_id x)) as [E|_].
    + exfalso. apply (Hp p eq_refl). rewrite E. apply list_elem_of_here.
    + rewrite Hrest. reflexivity.
  - rewrite Hrest. reflexivity.
Qed.

Lemma setupSearch_fresh (input : list InputEvent) :
  NoDup (ev_id <$> input) -> setupSearch input = debounceTime 300 input.
Proof.
  intros H. unfold setupSearch, distinctUntilChanged.
  apply distinctUntilChanged_from_fresh; [|discriminate].
  apply debounceTime_fresh, H.
Qed.

Lemma debounceTime_burst (d : Z) (b : list InputEvent) (e : InputEvent) :
  burst d (b ++ [e]) -> debounceTime d (b ++ [e]) = [e].
Proof.
  induction b as [|x b IH]; [reflexivity|].
  destruct b as [|y b].
  - cbn. intros [H _]. apply Z.ltb_lt in H. rewrite H. reflexivity.
  - change ((x :: y :: b) ++ [e]) with (x :: y :: (b ++ [e])).
    rewrite debounceTime_cons2. intros [H Hb].
    apply Z.ltb_lt in H. rewrite H. apply IH. exact Hb.
Qed.

Lemma debounceTime_app (d : Z) (h b : list InputEvent) :
  separated d h b ->
  debounceTime d (h ++ b) = debounceTime d h ++ debounceTime d b.
Proof.
  induction h as [|x h IH]; [reflexivity|].
  destruct h as [|x' h].
  - destruct b as [|y b]; [reflexivity|].
    unfold separated. cbn [last head app]. intros H.
    change ([x] ++ y :: b) with (x :: y :: b). rewrite debounceTime_cons2.
    apply Z.ltb_ge in H. rewrite H. reflexivity.
  - intros H. change ((x :: x' :: h) ++ b) with (x :: x' :: (h ++ b)).
    rewrite !debounceTime_cons2.
    change (x' :: (h ++ b)) with ((x' :: h) ++ b).
    rewrite IH by exact H.
    destruct (ev_time x' - ev_time x <? d); reflexivity.
Qed.

(** X18.  What the pipeline does with a burst, in general: after any earlier
    input [h], a burst [b ++ [e]] commits its last value exactly once,
    whether or not that value was the one committed before. *)
Lemma one_commit_per_burst (h b : list InputEvent) (e : InputEvent) :
  NoDup (ev_id <$> (h ++ b ++ [e])) ->
  burst 300 (b ++ [e]) ->
  separated 300 h (b ++ [e]) ->
  committed (h ++ b ++ [e]) = committed h ++ [ev_query e].
Proof.
  intros Hnd Hb Hsep. unfold committed.
  assert (Hh : NoDup (ev_id <$> h)).
  { rewrite fmap_app in Hnd. apply NoDup_app in Hnd. tauto. }
  rewrite (setupSearch_fresh _ Hnd), (setupSearch_fresh _ Hh).
  rewrite (debounceTime_app 300 h (b ++ [e]) Hsep).
  rewrite (debounceTime_burst 300 b e Hb).
  rewrite map_app. reflexivity.
Qed.

(** C5.  The pipeline at the failing input [typed_twice].  Its first burst
    commits "Paris".  Its second burst (two events 100ms apart) ends on
    "Paris" again, the query committed before, and one query is committed for
    it all the same: the subscriber runs twice, and two geocode requests for
    "Paris" go out after the one of [ngOnInit]. *)
Theorem duplicate_query_committed :
  committed (firstn 1 typed_twice) = ["Paris"]
  /\ burst 300 (skipn 1 typed_twice)
  /\ separated 300 (firstn 1 typed_twice) (skipn 1 typed_twice)
  /\ committed typed_twice = ["Paris"; "Paris"]
  /\ drive typed_twice
     = [(0, ModelChange "Paris"); (300, SearchInput);
        (1000, ModelChange "Pariss"); (1100, ModelChange "Paris"); (1400, SearchInput)]
  /\ issued (run (ngOnInit (initial true)) (drive typed_twice)) = 3%nat
  /\ pending (run (ngOnInit (initial true)) (drive typed_twice)) !! 1%nat
     = Some (Nominatim "Paris")
  /\ pending (run (ngOnInit (initial true)) (drive typed_twice)) !! 2%nat
     = Some (Nominatim "Paris").
Proof.
  split; [reflexivity|].
  split; [cbn; lia|].
  split; [unfold separated; cbn; lia|].
  repeat split; reflexivity.
Qed.

(** ** Blank and non-blank queries *)

Lemma blank_trimStart (s : string) : blank s = true -> trimStart s = EmptyString.
Proof.
  induction s as [|c r IH]; [reflexivity|]. cbn.
  destruct (isWhiteSpace c); [exact IH | discriminate].
Qed.

Lemma trimStart_blank (s : string) : blank (trimStart s) = blank s.
Proof.
  induction s as [|c r IH]; [reflexivity|]. cbn.
  destruct (isWhiteSpace c) eqn:Hc; [exact IH|]. cbn. rewrite Hc. reflexivity.
Qed.

Lemma rev_string_blank (acc s : string) :
  blank (rev_string acc s) = blank acc && blank s.
Proof.
  revert acc. induction s as [|c r IH]; intros acc; cbn.
  - rewrite andb_true_r. reflexivity.
  - rewrite IH. cbn. destruct (isWhiteSpace c), (blank acc), (blank r); reflexivity.
Qed.

Lemma trim_blank (s : string) : blank (trim s) = blank s.
Proof.
  unfold trim.
  rewrite rev_string_blank, trimStart_blank, rev_string_blank, trimStart_blank.
  reflexivity.
Qed.

(** [!query.trim()] holds exactly of the strings of white space. *)
Lemma truthy_trim (s : string) : truthy (trim s) = negb (blank s).
Proof.
  destruct (blank s) eqn:Hb.
  - unfold trim. rewrite (blank_trimStart s Hb). reflexivity.
  - pose proof (trim_blank s) as Ht. rewrite Hb in Ht.
    destruct (trim s); [discriminate Ht | reflexivity].
Qed.

(** X1.  A query of white space only is rejected: [searchLocation] leaves
    the state as it is, online or not, and so does a submit while
    [searchQuery] is such a string. *)
Theorem blank_query_ignored (now : Z) (s : State) (q : string) :
  blank q = true ->
  searchLocation q s = s
  /\ step now (set_searchQuery q s) OnSubmit = set_searchQuery q s
  /\ step now (set_searchQuery q s) SearchInput = set_searchQuery q s.
Proof.
  intros Hb.
  assert (H : forall st, searchLocation q st = st).
  { intros st. unfold searchLocation. rewrite truthy_trim, Hb. reflexivity. }
  split; [apply H|]. cbn [step]. cbn [searchQuery set_searchQuery destroyed].
  rewrite H. split; [reflexivity|]. destruct (destroyed s); reflexivity.
Qed.

Lemma visible_not_whiteSpace (c : ascii) : isVisible c = true -> isWhiteSpace c = false.
Proof.
  unfold isVisible, isWhiteSpace. intros H. apply andb_prop in H as [H1 H2].
  apply Nat.leb_le in H1. apply Nat.leb_le in H2.
  apply orb_false_intro.
  - apply Nat.eqb_neq. lia.
  - apply andb_false_intro2. apply Nat.leb_gt. lia.
Qed.

Lemma hasVisible_not_blank (s : string) : hasVisible s = true -> blank s = false.
Proof.
  induction s as [|c r IH]; [discriminate|]. cbn. intros H.
  destruct (isVisible c) eqn:Hc.
  - rewrite (visible_not_whiteSpace c Hc). reflexivity.
  - cbn in H. rewrite (IH H). apply andb_false_r.
Qed.

(** X2.  A query with a visible character, submitted while online, puts
    exactly one geocode request in flight, for the query as typed (not
    trimmed); [loading] is set and [error] cleared, and the view waits for
    the answer. *)
Theorem search_issues_geocode_request (s : State) (q : string) :
  hasVisible q = true ->
  isOffline s = false ->
  issued (searchLocation q s) = S (issued s)
  /\ pending (searchLocation q s) = <[issued s := Nominatim q]> (pending s)
  /\ loading (searchLocation q s) = true
  /\ error (searchLocation q s) = None
  /\ view (searchLocation q s) = view s.
Proof.
  intros Hv Ho. unfold searchLocation.
  rewrite truthy_trim, (hasVisible_not_blank q Hv), Ho. cbn. done.
Qed.

(** ** Geocode responses *)

(** X3.  A geocode answer with at least one entry: the first entry becomes
    the location (the others are not looked at), the map flies to it, and,
    when online, one POI request for its coordinates goes out.  [loading]
    is false after the turn although that request is in flight; restaurants,
    markers and [error] are not touched. *)
Theorem geocode_success (now : Z) (s : State) (id : nat) (q : string)
    (d : Location.t) (others : list Location.t) (m : MapWidget) :
  map s = Some m ->
  pending s !! id = Some (Nominatim q) ->
  let s' := step now s (GeocodeResponse id (HttpOk (d :: others))) in
  location s' = Some d
  /\ (flyTarget <$> map s')
     = Some (Some (ParseFloat (Location.lon d), ParseFloat (Location.lat d)))
  /\ loading s' = false
  /\ restaurants s' = restaurants s
  /\ markers s' = markers s
  /\ error s' = error s
  /\ (if isOffline s
      then issued s' = issued s /\ pending s' = delete id (pending s)
      else issued s' = S (issued s)
           /\ pending s'
              = <[issued s := Overpass (ParseFloat (Location.lat d))
                                       (ParseFloat (Location.lon d))]>
                  (delete id (pending s))).
Proof.
  intros Hm Hp s'. subst s'.
  rewrite (step_GeocodeResponse now s id q _ Hp).
  unfold searchLocation_next, updateMapCenter, fetchRestaurantsForCoordinates.
  cbn. rewrite Hm. cbn.
  destruct d as [dn dlat dlon]. cbn.
  destruct (isOffline s); cbn; rewrite ?Hm; cbn; done.
Qed.

(** X4.  A failed geocode request and an answer without entries leave the
    component in the same state: afterwards nothing tells them apart. *)
Theorem geocode_failure_same_as_no_result (now : Z) (s : State) (id : nat) :
  step now s (GeocodeResponse id HttpError)
  = step now s (GeocodeResponse id (HttpOk [])).
Proof.
  cbn [step]. destruct (pending s !! id) as [[q|? ?]|]; reflexivity.
Qed.

(** ** The error message *)

Lemma clusterOnLoad_error (s : State) :
  error (clusterOnLoad s) = error s
  /\ restaurants (clusterOnLoad s) = restaurants s
  /\ markers (clusterOnLoad s) = markers s
  /\ destroyed (clusterOnLoad s) = destroyed s.
Proof.
  unfold clusterOnLoad. destruct (map s) as [m|]; [|tauto].
  destruct (source m); cbn; tauto.
Qed.

Lemma clusterOnLoad_iter_error (n : nat) (s : State) :
  error (Nat.iter n clusterOnLoad s) = error s
  /\ restaurants (Nat.iter n clusterOnLoad s) = restaurants s
  /\ markers (Nat.iter n clusterOnLoad s) = markers s
  /\ destroyed (Nat.iter n clusterOnLoad s) = destroyed s.
Proof.
  induction n as [|n IH]; [cbn; tauto|].
  change (Nat.iter (S n) clusterOnLoad s)
    with (clusterOnLoad (Nat.iter n clusterOnLoad s)).
  destruct (clusterOnLoad_error (Nat.iter n clusterOnLoad s)) as (H1 & H2 & H3 & H4).
  destruct IH as (I1 & I2 & I3 & I4).
  rewrite H1, H2, H3, H4. tauto.
Qed.

Lemma ngOnDestroy_frame (s : State) :
  error (ngOnDestroy s) = error s
  /\ pending (ngOnDestroy s) = pending s
  /\ issued (ngOnDestroy s) = issued s
  /\ isOffline (ngOnDestroy s) = isOffline s
  /\ location (ngOnDestroy s) = location s
  /\ restaurants (ngOnDestroy s) = restaurants s
  /\ markers (ngOnDestroy s) = markers s
  /\ destroyed (ngOnDestroy s) = true.
Proof.
  unfold ngOnDestroy.
  destruct (destroyed s) eqn:Hd; cbn;
    destruct (refreshSubscription s); cbn;
    destruct (map s); cbn; rewrite ?Hd; tauto.
Qed.

(** X5.  Only a search clears the error message: through any other turn
    (a pan, a tick, a response, even a successful POI response) a message
    that is set stays set. *)
Theorem error_stays_until_search (now : Z) (s : State) (e : Event) :
  isSearch e = false ->
  is_Some (error s) ->
  is_Some (error (step now s e)).
Proof.
  intros He Hs. destruct e; try discriminate He; cbn [step].
  - destruct (destroyed s); exact Hs.
  - destruct (destroyed s); exact Hs.
  - exact Hs.
  - destruct (map s) as [m|]; [|exact Hs]. destruct (removed m); [exact Hs|].
    destruct (fetchRestaurants_frame center_lat center_lng s) as (_ & _ & _ & _ & _ & A & _).
    rewrite A. exact Hs.
  - destruct (pending s !! id) as [[q|? ?]|] eqn:Hp; try exact Hs.
    destruct r as [|[|d others]]; cbn -[fetchRestaurantsForCoordinates updateMapCenter];
      try (eexists; reflexivity).
    match goal with
    | |- context [fetchRestaurantsForCoordinates ?a ?b ?st] =>
        destruct (fetchRestaurants_frame a b st) as (_ & _ & _ & _ & _ & A & _)
    end.
    rewrite A. unfold updateMapCenter. cbn. destruct (map s); exact Hs.
  - destruct (pending s !! id) as [[q|? ?]|] eqn:Hp; try exact Hs.
    destruct r as [|body]; cbn -[fetchRestaurants_next].
    + destruct (fetchRestaurants_next_frame now (Some [])
                  (set_error (Some msg_poi_failed) (set_pending (delete id (pending s)) s)))
        as (_ & _ & _ & _ & _ & A & _).
      rewrite A. eexists; reflexivity.
    + destruct (fetchRestaurants_next_frame now body (set_pending (delete id (pending s)) s))
        as (_ & _ & _ & _ & _ & A & _).
      rewrite A. exact Hs.
  - destruct (timers s !! i) as [t|]; [|exact Hs].
    destruct (active t && due now t); [|exact Hs].
    unfold refreshTick. destruct (location s) as [l|]; [|exact Hs].
    destruct (negb (isOffline s)); [|exact Hs].
    destruct (fetchRestaurants_frame (ParseFloat (Location.lat l))
                (ParseFloat (Location.lon l)) s) as (_ & _ & _ & _ & _ & A & _).
    rewrite A. exact Hs.
  - destruct (map s) as [m|]; [|exact Hs]. destruct (removed m); [exact Hs|].
    destruct (clusterOnLoad_iter_error (loadListeners m) s) as (A & _).
    rewrite A. exact Hs.
  - destruct (ngOnDestroy_frame s) as (A & _). rewrite A. exact Hs.
Qed.

(** ** Rendering again *)

Lemma withListeners_0 (m : MapWidget) : withListeners 0 m = m.
Proof. destruct m. unfold withListeners. cbn. rewrite Nat.add_0_r. reflexivity. Qed.

Lemma updateMapMarkers_iter (n : nat) (s : State) (m : MapWidget) (l : Location.t) :
  map s = Some m ->
  location s = Some l ->
  (20 < length (restaurants s))%nat ->
  map (Nat.iter n updateMapMarkers s) = Some (withListeners n m)
  /\ location (Nat.iter n updateMapMarkers s) = Some l
  /\ restaurants (Nat.iter n updateMapMarkers s) = restaurants s.
Proof.
  intros Hm Hl Hlen. induction n as [|n IH].
  - cbn. rewrite withListeners_0. done.
  - change (Nat.iter (S n) updateMapMarkers s)
      with (updateMapMarkers (Nat.iter n updateMapMarkers s)).
    destruct IH as (I1 & I2 & I3).
    destruct (updateMapMarkers_frame (Nat.iter n updateMapMarkers s))
      as (_ & _ & _ & _ & _ & F6 & F7 & _).
    destruct (updateMapMarkers_present _ _ _ I1 I2) as (_ & U2).
    rewrite F6, F7, U2, I3.
    apply Nat.ltb_lt in Hlen. rewrite Hlen.
    split; [|done]. unfold withListeners. cbn. rewrite Nat.add_succ_r. reflexivity.
Qed.

(** X6.  Rendering the same state again gives the same markers, none is
    duplicated or left over.  With at most 20 restaurants the second
    rendering changes nothing at all; with more than 20 every rendering adds
    one more listener for the widget's load event, so after [n] renderings
    there are [n] more of them. *)
Theorem rendering_again (s : State) (m : MapWidget) (l : Location.t) :
  map s = Some m ->
  location s = Some l ->
  markers (updateMapMarkers (updateMapMarkers s)) = markers (updateMapMarkers s)
  /\ ((length (restaurants s) <= 20)%nat ->
      updateMapMarkers (updateMapMarkers s) = updateMapMarkers s)
  /\ ((20 < length (restaurants s))%nat ->
      forall n : nat, map (Nat.iter n updateMapMarkers s) = Some (withListeners n m)).
Proof.
  intros Hm Hl.
  destruct (updateMapMarkers_frame s) as (_ & _ & _ & _ & _ & F6 & F7 & _).
  destruct (updateMapMarkers_present s m l Hm Hl) as (U1 & U2).
  split; [|split].
  - rewrite <- F6 in Hl.
    destruct (updateMapMarkers_present (updateMapMarkers s) _ l U2 Hl) as (V1 & _).
    rewrite V1, F7, U1. reflexivity.
  - intros Hle. apply Nat.ltb_ge in Hle.
    assert (E : updateMapMarkers s
                = set_markers
                    (fold_left (fun ms r => ms ++ [restaurantMarker r])
                       (restaurants s) [centerMarker l]) s).
    { unfold updateMapMarkers. rewrite Hm, Hl, Hle. reflexivity. }
    rewrite E. unfold updateMapMarkers.
    cbn [map location restaurants set_markers]. rewrite Hm, Hl, Hle. reflexivity.
  - intros Hlt n. apply (updateMapMarkers_iter n s m l Hm Hl Hlt).
Qed.

(** ** The load event *)

Lemma clusterOnLoad_idempotent (s : State) :
  clusterOnLoad (clusterOnLoad s) = clusterOnLoad s.
Proof.
  destruct (map s) as [m|] eqn:Hm.
  - destruct (source m) as [src|] eqn:Hs.
    + assert (E : clusterOnLoad s
                  = set_map (Some {| flyTarget := flyTarget m; loadListeners := loadListeners m;
                                     source := Some {| data := List.map feature (restaurants s);
                                                       cluster := cluster src;
                                                       clusterMaxZoom := clusterMaxZoom src;
                                                       clusterRadius := clusterRadius src |};
                                     layers := layers m; removed := removed m |}) s).
      { unfold clusterOnLoad. rewrite Hm, Hs. reflexivity. }
      rewrite E. reflexivity.
    + assert (E : clusterOnLoad s
                  = set_map (Some {| flyTarget := flyTarget m; loadListeners := loadListeners m;
                                     source := Some {| data := List.map feature (restaurants s);
                                                       cluster := true;
                                                       clusterMaxZoom := 14;
                                                       clusterRadius := 50 |};
                                     layers := layers m ++ ["clusters"; "cluster-count"];
                                     removed := removed m |}) s).
      { unfold clusterOnLoad. rewrite Hm, Hs. reflexivity. }
      rewrite E. reflexivity.
  - assert (E : clusterOnLoad s = s) by (unfold clusterOnLoad; rewrite Hm; reflexivity).
    rewrite !E. reflexivity.
Qed.

Lemma clusterOnLoad_iter_once (n : nat) (s : State) :
  Nat.iter (S n) clusterOnLoad s = clusterOnLoad s.
Proof.
  induction n as [|n IH]; [reflexivity|].
  change (Nat.iter (S (S n)) clusterOnLoad s)
    with (clusterOnLoad (Nat.iter (S n) clusterOnLoad s)).
  rewrite IH. apply clusterOnLoad_idempotent.
Qed.

(** X7.  When the widget's load event fires with clustering set up, however
    many listeners have piled up, the effect is that of one: the source
    "restaurants" holds one feature per restaurant stored at that moment,
    and the two cluster layers are added when the source is new and not
    again when it exists.  A second load event changes nothing. *)
Theorem load_event_clusters_once (now : Z) (s : State) (m : MapWidget) (n : nat) :
  map s = Some m ->
  removed m = false ->
  loadListeners m = S n ->
  let s' := step now s MapLoad in
  s' = clusterOnLoad s
  /\ step now s' MapLoad = s'
  /\ (data <$> (map s' ≫= source)) = Some (List.map feature (restaurants s))
  /\ (layers <$> map s')
     = Some (match source m with
             | Some _ => layers m
             | None => layers m ++ ["clusters"; "cluster-count"]
             end).
Proof.
  intros Hm Hr Hn s'.
  assert (E : s' = clusterOnLoad s).
  { subst s'. cbn [step]. rewrite Hm, Hr, Hn. apply clusterOnLoad_iter_once. }
  rewrite E. split; [reflexivity|].
  assert (Hmap : exists m', map (clusterOnLoad s) = Some m'
                            /\ removed m' = false /\ loadListeners m' = S n
                            /\ data <$> source m' = Some (List.map feature (restaurants s))
                            /\ layers m' = match source m with
                                           | Some _ => layers m
                                           | None => layers m ++ ["clusters"; "cluster-count"]
                                           end).
  { unfold clusterOnLoad. rewrite Hm. destruct (source m); cbn; eexists; done. }
  destruct Hmap as (m' & Hm' & Hr' & Hn' & Hd & Hl).
  split.
  - cbn [step]. rewrite Hm', Hr', Hn'. rewrite clusterOnLoad_iter_once.
    apply clusterOnLoad_idempotent.
  - rewrite Hm'. cbn. rewrite Hl. split; [exact Hd | reflexivity].
Qed.

(** ** Requests per turn *)

Lemma atMostOneRequest_ext (s0 s1 s0' s1' : State) :
  issued s0' = issued s0 -> pending s0' ⊆ pending s0 ->
  issued s1' = issued s1 -> pending s1' = pending s1 ->
  atMostOneRequest s0' s1' -> atMostOneRequest s0 s1.
Proof.
  unfold atMostOneRequest. intros E1 E2 E3 E4. rewrite E1, E3, E4.
  intros [[H1 H2] | [H1 (r & H2 & H3)]].
  - left. split; [exact H1|]. etrans; [exact H2 | exact E2].
  - right. split; [exact H1|]. exists r. split; [exact H2|].
    etrans; [exact H3|]. apply insert_mono, E2.
Qed.

Lemma atMostOneRequest_same (s s' : State) :
  issued s' = issued s -> pending s' = pending s -> atMostOneRequest s s'.
Proof. intros E1 E2. left. rewrite E1, E2. done. Qed.

Lemma fetchRestaurants_atMostOne (lat lon : JsNumber) (s : State) :
  atMostOneRequest s (fetchRestaurantsForCoordinates lat lon s).
Proof.
  unfold fetchRestaurantsForCoordinates. destruct (isOffline s).
  - apply atMostOneRequest_same; reflexivity.
  - right. cbn. split; [reflexivity|]. eexists. split; [apply lookup_insert_eq | reflexivity].
Qed.

Lemma searchLocation_atMostOne (q : string) (s : State) :
  atMostOneRequest s (searchLocation q s).
Proof.
  unfold searchLocation. destruct (negb (truthy (trim q)) || isOffline s).
  - apply atMostOneRequest_same; reflexivity.
  - right. cbn. split; [reflexivity|]. eexists. split; [apply lookup_insert_eq | reflexivity].
Qed.

(** X8.  No turn puts more than one request in flight: after any turn
    either no request was issued and none was added to those in flight, or
    exactly one was issued, it carries the next number, and it is the only
    one added. *)
Theorem at_most_one_request_per_turn (now : Z) (s : State) (e : Event) :
  atMostOneRequest s (step now s e).
Proof.
  destruct e; cbn [step].
  - destruct (destroyed s); apply atMostOneRequest_same; reflexivity.
  - destruct (destroyed s); apply atMostOneRequest_same; reflexivity.
  - apply atMostOneRequest_same; reflexivity.
  - destruct (destroyed s); [apply atMostOneRequest_same; reflexivity|].
    apply searchLocation_atMostOne.
  - apply searchLocation_atMostOne.
  - destruct (map s) as [m|]; [|apply atMostOneRequest_same; reflexivity].
    destruct (removed m); [apply atMostOneRequest_same; reflexivity|].
    apply fetchRestaurants_atMostOne.
  - destruct (pending s !! id) as [[q|? ?]|]; try (apply atMostOneRequest_same; reflexivity).
    set (s0 := set_pending (delete id (pending s)) s).
    assert (H : forall body st,
               issued st = issued s0 -> pending st = pending s0 ->
               atMostOneRequest s (searchLocation_next body st)).
    { intros body st Hi Hp. unfold searchLocation_next.
      destruct body as [|d others].
      - left. cbn. rewrite Hi, Hp. split; [reflexivity | apply delete_subseteq].
      - match goal with
        | |- context [fetchRestaurantsForCoordinates ?a ?b ?x] =>
            pose proof (fetchRestaurants_atMostOne a b x) as Hf;
            set (x0 := x) in *
        end.
        assert (Hx : issued x0 = issued s0 /\ pending x0 = pending s0).
        { subst x0. unfold updateMapCenter. cbn. destruct (map st); cbn; done. }
        destruct Hx as [Hx1 Hx2].
        refine (atMostOneRequest_ext s _ x0 _ _ _ _ _ Hf).
        + rewrite Hx1. reflexivity.
        + rewrite Hx2. apply delete_subseteq.
        + reflexivity.
        + reflexivity. }
    destruct r as [|body]; cbn -[searchLocation_next]; apply H; reflexivity.
  - destruct (pending s !! id) as [[q|? ?]|]; try (apply atMostOneRequest_same; reflexivity).
    destruct r as [|body]; cbn -[fetchRestaurants_next].
    + destruct (fetchRestaurants_next_frame now (Some [])
                  (set_error (Some msg_poi_failed) (set_pending (delete id (pending s)) s)))
        as (_ & A2 & A3 & _).
      left. rewrite A2, A3. cbn. split; [reflexivity | apply delete_subseteq].
    + destruct (fetchRestaurants_next_frame now body (set_pending (delete id (pending s)) s))
        as (_ & A2 & A3 & _).
      left. rewrite A2, A3. cbn. split; [reflexivity | apply delete_subseteq].
  - destruct (timers s !! i) as [t|]; [|apply atMostOneRequest_same; reflexivity].
    destruct (active t && due now t); [|apply atMostOneRequest_same; reflexivity].
    unfold refreshTick. destruct (location s) as [l|]; [|apply atMostOneRequest_same; reflexivity].
    destruct (negb (isOffline s)); [|apply atMostOneRequest_same; reflexivity].
    apply fetchRestaurants_atMostOne.
  - destruct (map s) as [m|]; [|apply atMostOneRequest_same; reflexivity].
    destruct (removed m); [apply atMostOneRequest_same; reflexivity|].
    destruct (clusterOnLoad_iter_frame (loadListeners m) s) as (_ & A2 & A3 & _).
    apply atMostOneRequest_same; assumption.
  - destruct (ngOnDestroy_frame s) as (_ & A2 & A3 & _).
    apply atMostOneRequest_same; assumption.
Qed.

(** ** Refresh ticks *)

Lemma due_at_periods (t0 : Z) (k : Z) :
  0 < k -> due (t0 + k * refreshPeriod) {| armedAt := t0; active := true |} = true.
Proof.
  intros Hk. unfold due, refreshPeriod. cbn [armedAt].
  replace (t0 + k * 30000 - t0) with (k * 30000) by lia.
  rewrite Z.mod_mul by lia.
  rewrite (proj2 (Z.ltb_lt t0 (t0 + k * 30000))) by lia.
  reflexivity.
Qed.

(** X9.  The refresh timer is periodic and its ticks do not wait for the
    answer: with a location present and online, the first two ticks of a
    timer (30 and 60 seconds after it was armed), no response arriving in
    between, put two POI requests for the location in flight, and the timer
    goes on. *)
Theorem refresh_requests_overlap (s : State) (k : nat) (t0 : Z) (l : Location.t) :
  timers s !! k = Some {| armedAt := t0; active := true |} ->
  location s = Some l ->
  isOffline s = false ->
  let rq := Overpass (ParseFloat (Location.lat l)) (ParseFloat (Location.lon l)) in
  let s' := run s [(t0 + 1 * refreshPeriod, Tick k); (t0 + 2 * refreshPeriod, Tick k)] in
  issued s' = S (S (issued s))
  /\ pending s' !! issued s = Some rq
  /\ pending s' !! S (issued s) = Some rq
  /\ timers s' = timers s.
Proof.
  intros Ht Hl Ho rq s'. subst s'. cbn [run fold_left fst snd].
  assert (T : forall st, timers st = timers s -> location st = Some l -> isOffline st = false ->
              forall j, 0 < j ->
              step (t0 + j * refreshPeriod) st (Tick k)
              = http_get rq (set_loading true st)).
  { intros st Et El Eo j Hj. cbn [step]. rewrite Et, Ht. cbn [active].
    rewrite (due_at_periods t0 j Hj). cbn.
    unfold refreshTick, fetchRestaurantsForCoordinates. rewrite El, Eo. reflexivity. }
  rewrite (T s eq_refl Hl Ho 1 ltac:(lia)).
  rewrite (T (http_get rq (set_loading true s)) eq_refl Hl Ho 2 ltac:(lia)).
  cbn. split; [reflexivity|]. split; [|split; [|reflexivity]].
  - rewrite lookup_insert_ne by lia. apply lookup_insert_eq.
  - apply lookup_insert_eq.
Qed.

(** ** After teardown *)

Lemma fetchRestaurants_flags (lat lon : JsNumber) (s : State) :
  destroyed (fetchRestaurantsForCoordinates lat lon s) = destroyed s
  /\ isOffline (fetchRestaurantsForCoordinates lat lon s) = isOffline s.
Proof. unfold fetchRestaurantsForCoordinates. destruct (isOffline s) eqn:H; cbn; done. Qed.

Lemma searchLocation_flags (q : string) (s : State) :
  destroyed (searchLocation q s) = destroyed s
  /\ isOffline (searchLocation q s) = isOffline s.
Proof.
  unfold searchLocation. destruct (negb (truthy (trim q)) || isOffline s); cbn; done.
Qed.

Lemma searchLocation_next_flags (body : list Location.t) (s : State) :
  destroyed (searchLocation_next body s) = destroyed s
  /\ isOffline (searchLocation_next body s) = isOffline s.
Proof.
  unfold searchLocation_next. destruct body as [|d others]; cbn; [done|].
  match goal with
  | |- context [fetchRestaurantsForCoordinates ?a ?b ?x] =>
      destruct (fetchRestaurants_flags a b x) as (A1 & A2)
  end.
  rewrite A1, A2. unfold updateMapCenter. cbn. destruct (map s); cbn; done.
Qed.

Lemma updateMapMarkers_destroyed (s : State) :
  destroyed (updateMapMarkers s) = destroyed s.
Proof.
  unfold updateMapMarkers, setupClustering.
  destruct (map s) as [m|] eqn:Hm, (location s) as [l|]; try reflexivity.
  destruct (20 <? length (restaurants s))%nat; cbn; rewrite ?Hm; reflexivity.
Qed.

Lemma setupAutoRefresh_destroyed (now : Z) (s : State) :
  destroyed (setupAutoRefresh now s) = destroyed s.
Proof. unfold setupAutoRefresh. destruct (refreshSubscription s); reflexivity. Qed.

Lemma fetchRestaurants_next_flags (now : Z) (body : option (list Restaurant.t)) (s : State) :
  destroyed (fetchRestaurants_next now body s) = destroyed s.
Proof.
  unfold fetchRestaurants_next.
  rewrite setupAutoRefresh_destroyed. cbn [destroyed set_loading].
  rewrite updateMapMarkers_destroyed. reflexivity.
Qed.

Lemma step_after_destroy (now : Z) (s : State) (e : Event) :
  destroyed s = true ->
  destroyed (step now s e) = true /\ isOffline (step now s e) = isOffline s.
Proof.
  intros Hd. destruct e; cbn [step]; rewrite ?Hd; try done.
  - destruct (searchLocation_flags (searchQuery s) s) as (A1 & A2). rewrite A1, A2. done.
  - destruct (map s) as [m|]; [|done]. destruct (removed m); [done|].
    destruct (fetchRestaurants_flags center_lat center_lng s) as (A1 & A2).
    rewrite A1, A2. done.
  - destruct (pending s !! id) as [[q|? ?]|]; try done.
    destruct r as [|body]; cbn -[searchLocation_next].
    + destruct (searchLocation_next_flags []
                  (set_error (Some msg_geocode_failed) (set_pending (delete id (pending s)) s)))
        as (A1 & A2).
      rewrite A1, A2. done.
    + destruct (searchLocation_next_flags body (set_pending (delete id (pending s)) s))
        as (A1 & A2).
      rewrite A1, A2. done.
  - destruct (pending s !! id) as [[q|? ?]|]; try done.
    destruct r as [|body]; cbn -[fetchRestaurants_next].
    + rewrite fetchRestaurants_next_flags.
      destruct (fetchRestaurants_next_frame now (Some [])
                  (set_error (Some msg_poi_failed) (set_pending (delete id (pending s)) s)))
        as (A1 & _).
      rewrite A1. done.
    + rewrite fetchRestaurants_next_flags.
      destruct (fetchRestaurants_next_frame now body (set_pending (delete id (pending s)) s))
        as (A1 & _).
      rewrite A1. done.
  - destruct (timers s !! i) as [t|]; [|done].
    destruct (active t && due now t); [|done].
    unfold refreshTick. destruct (location s) as [l|]; [|done].
    destruct (negb (isOffline s)); [|done].
    destruct (fetchRestaurants_flags (ParseFloat (Location.lat l))
                (ParseFloat (Location.lon l)) s) as (A1 & A2).
    rewrite A1, A2. done.
  - destruct (map s) as [m|]; [|done]. destruct (removed m); [done|].
    destruct (clusterOnLoad_iter_frame (loadListeners m) s) as (A1 & _).
    destruct (clusterOnLoad_iter_error (loadListeners m) s) as (_ & _ & _ & A4).
    rewrite A1, A4. done.
  - destruct (ngOnDestroy_frame s) as (_ & _ & _ & A4 & _ & _ & _ & A8).
    rewrite A4, A8. done.
Qed.

(** X10.  Teardown is permanent and freezes the connectivity flag: after
    [ngOnDestroy], whatever turns follow ([online] and [offline] events
    included), the component stays destroyed and [isOffline] keeps its
    value.  A component torn down while offline therefore never issues a
    request again. *)
Theorem teardown_freezes_connectivity (s : State) (tr : list (Z * Event)) :
  destroyed s = true ->
  destroyed (run s tr) = true
  /\ isOffline (run s tr) = isOffline s
  /\ (isOffline s = true -> issued (run s tr) = issued s).
Proof.
  revert s. induction tr as [|[now e] tr IH]; intros s Hd; [done|].
  change (run s ((now, e) :: tr)) with (run (step now s e) tr).
  destruct (step_after_destroy now s e Hd) as (S1 & S2).
  destruct (IH (step now s e) S1) as (I1 & I2 & I3).
  split; [exact I1|]. split; [rewrite I2; exact S2|].
  intros Ho. rewrite I3 by (rewrite S2; exact Ho).
  apply (step_offline now s e Ho).
Qed.

Lemma list_alter_cancel_twice (i : nat) (l : list Timer) :
  alter cancel i (alter cancel i l) = alter cancel i l.
Proof.
  revert i. induction l as [|t l IH]; intros [|i]; cbn; try reflexivity.
  f_equal. apply IH.
Qed.

(** X11.  [ngOnDestroy] is idempotent: running it a second time changes
    nothing. *)
Theorem ngOnDestroy_idempotent (s : State) :
  ngOnDestroy (ngOnDestroy s) = ngOnDestroy s.
Proof.
  destruct s as [mp mk ds rs sq lo re ld er off tm pe iss].
  unfold ngOnDestroy. cbn.
  destruct ds; cbn; destruct rs as [i|]; cbn; destruct mp as [m|]; cbn;
    rewrite ?list_alter_cancel_twice; reflexivity.
Qed.

(** X12.  Teardown does not reach the requests in flight: the answer to a
    POI request that arrives after [ngOnDestroy] is applied like any other,
    and it arms a new refresh timer, active on the destroyed component. *)
Theorem late_response_after_teardown (t1 t2 : Z) (s : State) (id : nat)
    (lat lon : JsNumber) (body : option (list Restaurant.t)) :
  pending s !! id = Some (Overpass lat lon) ->
  let s' := run s [(t1, Destroy); (t2, PoiResponse id (HttpOk body))] in
  destroyed s' = true
  /\ restaurants s' = default [] body
  /\ exists k : nat,
       refreshSubscription s' = Some k
       /\ timers s' !! k = Some {| armedAt := t2; active := true |}.
Proof.
  intros Hp s'. subst s'. cbn [run fold_left fst snd].
  change (step t1 s Destroy) with (ngOnDestroy s).
  destruct (ngOnDestroy_frame s) as (_ & A2 & _ & _ & _ & _ & _ & A8).
  assert (Hp' : pending (ngOnDestroy s) !! id = Some (Overpass lat lon))
    by (rewrite A2; exact Hp).
  rewrite (step_PoiResponse t2 _ id lat lon _ Hp').
  set (s0 := set_pending _ _).
  rewrite fetchRestaurants_next_flags.
  destruct (fetchRestaurants_next_frame t2 body s0) as (_ & _ & _ & _ & B5 & _).
  destruct (fetchRestaurants_next_armed t2 body s0) as (C1 & C2 & _).
  split; [exact A8|]. split; [exact B5|].
  exists (length (timers s0)). split; [exact C1 | exact C2].
Qed.

(** ** Starting offline *)

Lemma ngOnDestroy_no_timers (s : State) :
  timers s = [] -> timers (ngOnDestroy s) = [].
Proof.
  intros Ht. unfold ngOnDestroy.
  destruct (destroyed s); cbn; destruct (refreshSubscription s); cbn;
    destruct (map s); cbn; rewrite Ht; reflexivity.
Qed.

Lemma step_idle (now : Z) (s : State) (e : Event) :
  userAction e = false -> idle s -> idle (step now s e).
Proof.
  unfold idle, view. intros He (Hi & Hp & Ht & Hv).
  injection Hv as Hl Hr Hm.
  destruct e; try discriminate He; cbn [step].
  - destruct (destroyed s); cbn; rewrite ?Hi, ?Hp, ?Ht, ?Hl, ?Hr, ?Hm; done.
  - destruct (destroyed s); cbn; rewrite ?Hi, ?Hp, ?Ht, ?Hl, ?Hr, ?Hm; done.
  - cbn. rewrite Hi, Hp, Ht, Hl, Hr, Hm. done.
  - replace (pending s !! id) with (@None Request) by (rewrite Hp; reflexivity).
    rewrite Hi, Hp, Ht, Hl, Hr, Hm. done.
  - replace (pending s !! id) with (@None Request) by (rewrite Hp; reflexivity).
    rewrite Hi, Hp, Ht, Hl, Hr, Hm. done.
  - replace (timers s !! i) with (@None Timer) by (rewrite Ht; reflexivity).
    rewrite Hi, Hp, Ht, Hl, Hr, Hm. done.
  - destruct (map s) as [m|]; [|rewrite Hi, Hp, Ht, Hl, Hr, Hm; done].
    destruct (removed m); [rewrite Hi, Hp, Ht, Hl, Hr, Hm; done|].
    destruct (clusterOnLoad_iter_frame (loadListeners m) s) as (_ & A2 & A3 & A4 & _ & A6).
    destruct (clusterOnLoad_iter_error (loadListeners m) s) as (_ & B2 & B3 & _).
    rewrite A2, A3, A4, A6, B2, B3, Hi, Hp, Ht, Hl, Hr, Hm. done.
  - destruct (ngOnDestroy_frame s) as (_ & A2 & A3 & _ & A5 & A6 & A7 & _).
    rewrite A2, A3, A5, A6, A7, (ngOnDestroy_no_timers s Ht), Hi, Hp, Hl, Hr, Hm. done.
Qed.

(** X13.  A component started offline does not search on its own: the
    search for the initial query is dropped by [ngOnInit], and as long as
    the user neither submits, types nor pans, nothing is requested, armed or
    shown, also after the connection is back. *)
Theorem offline_start_stays_idle (tr : list (Z * Event)) :
  forallb (fun te => negb (userAction (snd te))) tr = true ->
  idle (run (ngOnInit (initial false)) tr).
Proof.
  assert (H0 : idle (ngOnInit (initial false))) by (unfold idle; cbn; done).
  revert H0. generalize (ngOnInit (initial false)).
  induction tr as [|[now e] tr IH]; intros s Hs Htr; [exact Hs|].
  cbn in Htr. apply andb_prop in Htr as [He Htr]. apply negb_true_iff in He.
  change (run s ((now, e) :: tr)) with (run (step now s e) tr).
  apply IH; [|exact Htr]. apply step_idle; assumption.
Qed.

(** ** A whole search *)

Lemma geocode_success_online (now : Z) (s : State) (id : nat) (q : string)
    (d : Location.t) (others : list Location.t) (m : MapWidget) :
  map s = Some m ->
  isOffline s = false ->
  pending s !! id = Some (Nominatim q) ->
  location (step now s (GeocodeResponse id (HttpOk (d :: others)))) = Some d
  /\ (exists m1 : MapWidget,
        map (step now s (GeocodeResponse id (HttpOk (d :: others)))) = Some m1
        /\ flyTarget m1 = Some (ParseFloat (Location.lon d), ParseFloat (Location.lat d)))
  /\ issued (step now s (GeocodeResponse id (HttpOk (d :: others)))) = S (issued s)
  /\ pending (step now s (GeocodeResponse id (HttpOk (d :: others))))
     = <[issued s := Overpass (ParseFloat (Location.lat d)) (ParseFloat (Location.lon d))]>
         (delete id (pending s)).
Proof.
  intros Hm Ho Hp.
  rewrite (step_GeocodeResponse now s id q _ Hp).
  unfold searchLocation_next, updateMapCenter, fetchRestaurantsForCoordinates.
  cbn. rewrite Hm. cbn. rewrite Ho. cbn. rewrite ?Hm.
  destruct d as [dn dlat dlon]. cbn.
  split; [reflexivity|]. split; [eexists; split; reflexivity|]. done.
Qed.


(** X14.  A search from answer to answer.  Online, the geocode answer
    [d :: others] arrives, then the answer [es] to the POI request it
    started (the request numbered [issued s]).  Afterwards [d] is the
    location, [es] are the restaurants, the markers are the location marker
    and one marker per restaurant, the map has flown to where the location
    marker stands, both requests are gone from those in flight, [loading] is
    false and the refresh timer is armed at the time of the second answer. *)
Theorem search_cycle (t1 t2 : Z) (s : State) (id : nat) (q : string)
    (d : Location.t) (others : list Location.t) (es : list Restaurant.t) (m : MapWidget) :
  map s = Some m ->
  isOffline s = false ->
  pending s !! id = Some (Nominatim q) ->
  let s' := run s [(t1, GeocodeResponse id (HttpOk (d :: others)));
                   (t2, PoiResponse (issued s) (HttpOk (Some es)))] in
  location s' = Some d
  /\ restaurants s' = es
  /\ markers s' = centerMarker d :: List.map restaurantMarker es
  /\ (flyTarget <$> map s') = Some (Some (lngLat (centerMarker d)))
  /\ pending s' = delete (issued s) (delete id (pending s))
  /\ loading s' = false
  /\ exists k : nat,
       refreshSubscription s' = Some k
       /\ timers s' !! k = Some {| armedAt := t2; active := true |}.
Proof.
  intros Hm Ho Hp s'. subst s'. cbn [run fold_left fst snd].
  pose proof (geocode_success_online t1 s id q d others m Hm Ho Hp)
    as (G1 & G2 & G3 & G4).
  set (s1 := step t1 s (GeocodeResponse id (HttpOk (d :: others)))) in *.
  assert (Hp1 : pending s1 !! issued s
                = Some (Overpass (ParseFloat (Location.lat d)) (ParseFloat (Location.lon d))))
    by (rewrite G4; apply lookup_insert_eq).
  rewrite (step_PoiResponse t2 s1 (issued s) _ _ _ Hp1).
  set (s0 := set_pending _ _).
  destruct G2 as (m1 & Hm1 & Hf1).
  destruct (fetchRestaurants_next_frame t2 (Some es) s0) as (_ & _ & B3 & B4 & B5 & _ & B7).
  destruct (fetchRestaurants_next_view t2 (Some es) s0) as (V1 & V2).
  destruct (fetchRestaurants_next_armed t2 (Some es) s0) as (C1 & C2 & _).
  destruct (updateMapMarkers_present (set_restaurants (default [] (Some es)) s0) m1 d Hm1 G1)
    as (U1 & U2).
  split; [rewrite B4; exact G1|].
  split; [rewrite B5; reflexivity|].
  split; [rewrite V1, U1; reflexivity|].
  split.
  { rewrite V2, U2.
    destruct (20 <? length (restaurants (set_restaurants (default [] (Some es)) s0)))%nat;
      cbn [fmap option_fmap option_map flyTarget]; rewrite Hf1; reflexivity. }
  split.
  { rewrite B3. subst s0. cbn [pending set_pending].
    rewrite G4, delete_insert_eq. reflexivity. }
  split; [exact B7|].
  exists (length (timers s0)). split; [exact C1 | exact C2].
Qed.

(** ** More on the search pipeline *)

Lemma debounceTime_spaced (d : Z) (l : list InputEvent) :
  spaced d l -> debounceTime d l = l.
Proof.
  induction l as [|e l IH]; [reflexivity|].
  destruct l as [|e' l]; [reflexivity|].
  intros [H Hs]. rewrite debounceTime_cons2.
  apply Z.ltb_ge in H. rewrite H. rewrite IH by exact Hs. reflexivity.
Qed.

(** X15.  Input events at least 300ms apart are all committed, each with
    its own value, equal values included. *)
Theorem spaced_inputs_all_committed (input : list InputEvent) :
  NoDup (ev_id <$> input) ->
  spaced 300 input ->
  committed input = List.map ev_query input.
Proof.
  intros Hnd Hs. unfold committed.
  rewrite (setupSearch_fresh input Hnd), (debounceTime_spaced 300 input Hs).
  reflexivity.
Qed.

Lemma debounceTime_nonempty (d : Z) (e : InputEvent) (l : list InputEvent) :
  debounceTime d (e :: l) <> [].
Proof.
  revert e. induction l as [|e' l IH]; intros e; [discriminate|].
  rewrite debounceTime_cons2.
  destruct (ev_time e' - ev_time e <? d); [apply IH | discriminate].
Qed.

Lemma debounceTime_last (d : Z) (l : list InputEvent) :
  last (debounceTime d l) = last l.
Proof.
  induction l as [|e l IH]; [reflexivity|].
  destruct l as [|e' l]; [reflexivity|].
  rewrite debounceTime_cons2, last_cons_cons.
  destruct (ev_time e' - ev_time e <? d); [exact IH|].
  rewrite <- IH.
  pose proof (debounceTime_nonempty d e' l) as Hne.
  destruct (debounceTime d (e' :: l)) as [|x k]; [congruence|].
  apply last_cons_cons.
Qed.

(** X16.  Whatever is typed, the query committed last is the one of the
    last input event: the pipeline never ends on an older value. *)
Theorem last_input_committed_last (input : list InputEvent) :
  NoDup (ev_id <$> input) ->
  last (committed input) = ev_query <$> last input.
Proof.
  intros Hnd. unfold committed. rewrite (setupSearch_fresh input Hnd).
  rewrite <- (debounceTime_last 300 input).
  generalize (debounceTime 300 input). intros l.
  change (List.map ev_query l) with (ev_query <$> l).
  apply fmap_last.
Qed.

(** ** Superseded timers *)

(** X17.  A timer that is not the current refresh subscription never runs
    its callback: its tick leaves the state as it is. *)
Theorem superseded_timer_silent (now : Z) (s : State) (i : nat) :
  reachable s ->
  refreshSubscription s <> Some i ->
  step now s (Tick i) = s.
Proof.
  intros Hreach Hne. pose proof (reachable_single_timer s Hreach) as Hinv.
  cbn [step]. destruct (timers s !! i) as [t|] eqn:Ht; [|reflexivity].
  destruct (active t) eqn:Ha; [|reflexivity].
  exfalso. apply Hne. exact (Hinv i t Ht Ha).
Qed.

(** ** The properties above at sample states *)

Lemma reachable_s_panned : reachable s_panned.
Proof. unfold s_panned. apply reachable_step, reachable_s_paris. Qed.

Lemma blank_query_ignored_witness :
  blank "   " = true
  /\ searchLocation "   " s_paris = s_paris
  /\ step 100 (set_searchQuery "   " s_paris) OnSubmit = set_searchQuery "   " s_paris.
Proof.
  split; [reflexivity|].
  destruct (blank_query_ignored 100 s_paris "   " eq_refl) as (H1 & H2 & _).
  split; [exact H1 | exact H2].
Defined.

Lemma search_issues_geocode_request_witness :
  hasVisible " Lyon " = true
  /\ isOffline s_paris = false
  /\ issued (searchLocation " Lyon " s_paris) = 3%nat
  /\ pending (searchLocation " Lyon " s_paris)
     = <[2%nat := Nominatim " Lyon "]> (pending s_paris).
Proof.
  split; [reflexivity|]. split; [reflexivity|].
  destruct (search_issues_geocode_request s_paris " Lyon " eq_refl eq_refl)
    as (H1 & H2 & _).
  split; [exact H1 | exact H2].
Defined.

Lemma geocode_success_witness :
  map s_init = Some fresh_map
  /\ pending s_init !! 0%nat = Some (Nominatim "Paris")
  /\ location (step 10 s_init (GeocodeResponse 0 (HttpOk [paris]))) = Some paris
  /\ loading (step 10 s_init (GeocodeResponse 0 (HttpOk [paris]))) = false
  /\ issued (step 10 s_init (GeocodeResponse 0 (HttpOk [paris]))) = 2%nat.
Proof.
  split; [reflexivity|]. split; [reflexivity|].
  destruct (geocode_success 10 s_init 0 "Paris" paris [] fresh_map eq_refl eq_refl)
    as (H1 & _ & H3 & _ & _ & _ & H7).
  split; [exact H1|]. split; [exact H3|]. exact (proj1 H7).
Defined.

Lemma error_stays_until_search_witness :
  isSearch (PoiResponse 3 (HttpOk (Some [resto 4]))) = false
  /\ error s_failed_pan = Some msg_poi_failed
  /\ is_Some (error (step 990 s_failed_pan (PoiResponse 3 (HttpOk (Some [resto 4]))))).
Proof.
  split; [reflexivity|]. split; [reflexivity|].
  apply (error_stays_until_search 990 s_failed_pan (PoiResponse 3 (HttpOk (Some [resto 4])))).
  - reflexivity.
  - exists msg_poi_failed. reflexivity.
Defined.

Lemma rendering_again_witness :
  map s_many = Some (withListeners 1 paris_map)
  /\ location s_many = Some paris
  /\ (20 < length (restaurants s_many))%nat
  /\ markers (updateMapMarkers (updateMapMarkers s_many)) = markers (updateMapMarkers s_many)
  /\ map (Nat.iter 3 updateMapMarkers s_many)
     = Some (withListeners 3 (withListeners 1 paris_map)).
Proof.
  split; [reflexivity|]. split; [reflexivity|].
  assert (Hlen : (20 < length (restaurants s_many))%nat) by (vm_compute; lia).
  split; [exact Hlen|].
  destruct (rendering_again s_many (withListeners 1 paris_map) paris eq_refl eq_refl)
    as (H1 & _ & H3).
  split; [exact H1 | exact (H3 Hlen 3%nat)].
Defined.

Lemma load_event_clusters_once_witness :
  map s_many = Some (withListeners 1 paris_map)
  /\ removed (withListeners 1 paris_map) = false
  /\ loadListeners (withListeners 1 paris_map) = 1%nat
  /\ step 1000 (step 1000 s_many MapLoad) MapLoad = step 1000 s_many MapLoad
  /\ (layers <$> map (step 1000 s_many MapLoad)) = Some ["clusters"; "cluster-count"].
Proof.
  split; [reflexivity|]. split; [reflexivity|]. split; [reflexivity|].
  destruct (load_event_clusters_once 1000 s_many (withListeners 1 paris_map) 0
              eq_refl eq_refl eq_refl) as (_ & H2 & _ & H4).
  split; [exact H2 | exact H4].
Defined.

Lemma refresh_requests_overlap_witness :
  timers s_paris !! 0%nat = Some {| armedAt := 20; active := true |}
  /\ location s_paris = Some paris
  /\ isOffline s_paris = false
  /\ issued (run s_paris [(30020, Tick 0); (60020, Tick 0)]) = 4%nat
  /\ pending (run s_paris [(30020, Tick 0); (60020, Tick 0)]) !! 3%nat
     = Some (Overpass (ParseFloat "48.8566") (ParseFloat "2.3522")).
Proof.
  split; [reflexivity|]. split; [reflexivity|]. split; [reflexivity|].
  destruct (refresh_requests_overlap s_paris 0 20 paris eq_refl eq_refl eq_refl)
    as (H1 & _ & H3 & _).
  split; [exact H1 | exact H3].
Defined.

Lemma teardown_freezes_connectivity_witness :
  destroyed s_torn_offline = true
  /\ isOffline s_torn_offline = true
  /\ isOffline (run s_torn_offline after_teardown) = true
  /\ issued (run s_torn_offline after_teardown) = issued s_torn_offline.
Proof.
  split; [reflexivity|]. split; [reflexivity|].
  destruct (teardown_freezes_connectivity s_torn_offline after_teardown eq_refl)
    as (_ & H2 & H3).
  split; [exact H2 | exact (H3 eq_refl)].
Defined.

(** Without the teardown the same turns bring the component online and
    issue two requests. *)
Example after_reconnect_requests_go_out :
  issued (run s_offline after_teardown) = (issued s_offline + 2)%nat.
Proof. reflexivity. Qed.

Lemma late_response_after_teardown_witness :
  pending s_panned !! 2%nat = Some (Overpass (Num 7) (Num 8))
  /\ restaurants (run s_panned [(200, Destroy); (900, PoiResponse 2 (HttpOk (Some [resto 2])))])
     = [resto 2]
  /\ exists k : nat,
       refreshSubscription
         (run s_panned [(200, Destroy); (900, PoiResponse 2 (HttpOk (Some [resto 2])))])
       = Some k
       /\ timers (run s_panned [(200, Destroy); (900, PoiResponse 2 (HttpOk (Some [resto 2])))])
            !! k
          = Some {| armedAt := 900; active := true |}.
Proof.
  split; [reflexivity|].
  destruct (late_response_after_teardown 200 900 s_panned 2 (Num 7) (Num 8)
              (Some [resto 2]) eq_refl) as (_ & H2 & H3).
  split; [exact H2 | exact H3].
Defined.

Lemma offline_start_stays_idle_witness :
  forallb (fun te => negb (userAction (snd te))) no_user_action = true
  /\ idle (run (ngOnInit (initial false)) no_user_action).
Proof.
  split; [reflexivity|].
  apply (offline_start_stays_idle no_user_action). reflexivity.
Defined.

Lemma search_cycle_witness :
  map s_init = Some fresh_map
  /\ isOffline s_init = false
  /\ pending s_init !! 0%nat = Some (Nominatim "Paris")
  /\ location (run s_init [(10, GeocodeResponse 0 (HttpOk [paris]));
                           (20, PoiResponse 1 (HttpOk (Some (restos 5))))]) = Some paris
  /\ markers (run s_init [(10, GeocodeResponse 0 (HttpOk [paris]));
                          (20, PoiResponse 1 (HttpOk (Some (restos 5))))])
     = centerMarker paris :: List.map restaurantMarker (restos 5).
Proof.
  split; [reflexivity|]. split; [reflexivity|]. split; [reflexivity|].
  destruct (search_cycle 10 20 s_init 0 "Paris" paris [] (restos 5) fresh_map
              eq_refl eq_refl eq_refl) as (H1 & _ & H3 & _).
  split; [exact H1 | exact H3].
Defined.

Lemma spaced_inputs_all_committed_witness :
  NoDup (ev_id <$> typed_slowly)
  /\ spaced 300 typed_slowly
  /\ committed typed_slowly = ["Paris"; "Paris"].
Proof.
  assert (Hnd : NoDup (ev_id <$> typed_slowly)).
  { apply (bool_decide_unpack _). reflexivity. }
  assert (Hs : spaced 300 typed_slowly) by (cbn; lia).
  split; [exact Hnd|]. split; [exact Hs|].
  exact (spaced_inputs_all_committed typed_slowly Hnd Hs).
Defined.

Lemma last_input_committed_last_witness :
  NoDup (ev_id <$> typed_twice)
  /\ last (committed typed_twice) = Some "Paris".
Proof.
  assert (Hnd : NoDup (ev_id <$> typed_twice)).
  { apply (bool_decide_unpack _). reflexivity. }
  split; [exact Hnd|].
  exact (last_input_committed_last typed_twice Hnd).
Defined.

Lemma one_commit_per_burst_witness :
  NoDup (ev_id <$> typed_twice)
  /\ burst 300 (skipn 1 typed_twice)
  /\ separated 300 (firstn 1 typed_twice) (skipn 1 typed_twice)
  /\ committed typed_twice = committed (firstn 1 typed_twice) ++ ["Paris"].
Proof.
  assert (Hnd : NoDup (ev_id <$> typed_twice)).
  { apply (bool_decide_unpack _). reflexivity. }
  assert (Hb : burst 300 (skipn 1 typed_twice)) by (cbn; lia).
  assert (Hs : separated 300 (firstn 1 typed_twice) (skipn 1 typed_twice))
    by (unfold separated; cbn; lia).
  split; [exact Hnd|]. split; [exact Hb|]. split; [exact Hs|].
  exact (one_commit_per_burst (firstn 1 typed_twice) (firstn 1 (skipn 1 typed_twice))
           {| ev_id := 2; ev_time := 1100; ev_query := "Paris" |} Hnd Hb Hs).
Defined.

Lemma superseded_timer_silent_witness :
  reachable s_many
  /\ refreshSubscription s_many <> Some 0%nat
  /\ due 30020 {| armedAt := 20; active := true |} = true
  /\ step 30020 s_many (Tick 0) = s_many.
Proof.
  assert (Hr : reachable s_many).
  { unfold s_many. apply reachable_step, reachable_s_panned. }
  assert (Hne : refreshSubscription s_many <> Some 0%nat) by (vm_compute; discriminate).
  split; [exact Hr|]. split; [exact Hne|]. split; [reflexivity|].
  exact (superseded_timer_silent 30020 s_many 0 Hr Hne).
Defined.
